(** * Embedx: the embedding-set wrapper of [full-package/core.py]

    A shallow embedding of the class [Embedx] and of the numpy behaviour its
    methods rely on, followed by the properties of row removal, duplicate
    detection, construction, loading and normalisation.

    Conventions.
    - A 2-D [numpy.ndarray] is a list of rows together with its column count
      (an array with no row still has a second dimension).
    - Python objects that are mutated in place or shared live in a heap of
      arrays addressed by locations; [self.embeddings] is a location.
    - A method is a function from the world before the call to an outcome:
      a returned value or a raised exception, with the world at that point.
    - The element type of the arrays is a parameter [F] with the operations
      the code uses on it; it is instantiated with binary64 floats (what
      numpy computes with) and with the real numbers (the idealised reading
      of the arithmetic). *)

From Stdlib Require Import ZArith List String Bool Lia.
From Stdlib Require Import Reals Lra.
From Stdlib Require Import Floats.PrimFloat.
From stdpp Require Import base list strings gmap pretty.

Local Open Scope Z_scope.
Local Open Scope nat_scope.
Local Open Scope string_scope.

(** ** Element type *)

(** The operations of the array element type that [core.py] uses, either
    directly ([>=], [1 - dist], [/], [== 0]) or through numpy reductions
    over one row ([np.linalg.norm(.., axis=1)], [np.sum(np.abs(..), axis=1)])
    and over a vector ([.mean()], [.std()]). *)
Class Scalar (F : Type) := {
  f_one : F;
  f_sub : F -> F -> F;
  f_div : F -> F -> F;
  f_ge : F -> F -> bool;
  f_is_zero : F -> bool;
  norm_l2 : list F -> F;
  norm_l1 : list F -> F;
  f_mean : list F -> F;
  f_std : list F -> F
}.

(** ** Exceptions *)

(** A Python exception: the name of its class and its message. *)
Record exn := Exn { exn_class : string; exn_msg : string }.

Definition ValueError (msg : string) : exn := Exn "ValueError" msg.
Definition IndexError (msg : string) : exn := Exn "IndexError" msg.

#[global] Instance exn_eq_dec : EqDecision exn.
Proof. solve_decision. Defined.

(** ** numpy arrays *)

(** A 2-D array: [shape] is [(length rows, ncols)]. *)
Record ndarray (F : Type) := NdArray { rows : list (list F); ncols : nat }.
Arguments NdArray {F} _ _.
Arguments rows {F} _.
Arguments ncols {F} _.

Definition shape {F} (a : ndarray F) : nat * nat := (length (rows a), ncols a).

#[global] Instance ndarray_inhabited {F} : Inhabited (ndarray F) :=
  populate (NdArray [] 0).

(** [np.ones(n, dtype=bool)] *)
Definition np_ones_bool (n : nat) : list bool := replicate n true.

(** numpy's treatment of one integer index on an axis of size [n]: an index
    in [0, n) is itself, an index in [-n, 0) counts from the end, anything
    else raises [IndexError]. *)
Definition wrap_index (n : nat) (i : Z) : exn + nat :=
  if decide (0 <= i < Z.of_nat n)%Z then inr (Z.to_nat i)
  else if decide (- Z.of_nat n <= i < 0)%Z then inr (Z.to_nat (i + Z.of_nat n))
  else inl (IndexError ("index " +:+ pretty i +:+
                        " is out of bounds for axis 0 with size " +:+ pretty n)).

(** [mask[idxs] = False] for a list of integer indices. *)
Fixpoint setitem_false (mask : list bool) (idxs : list Z) : exn + list bool :=
  match idxs with
  | [] => inr mask
  | i :: rest =>
      match wrap_index (length mask) i with
      | inl e => inl e
      | inr p => setitem_false (<[p := false]> mask) rest
      end
  end.

(** The elements of [xs] at the positions where [mask] is true. *)
Fixpoint select {A} (mask : list bool) (xs : list A) : list A :=
  match mask, xs with
  | b :: mask', x :: xs' => if b then x :: select mask' xs' else select mask' xs'
  | _, _ => []
  end.

Definition mask_mismatch (n m : nat) : exn :=
  IndexError ("boolean index did not match indexed array along axis 0; " +:+
              "size of axis is " +:+ pretty n +:+
              " but size of corresponding boolean axis is " +:+ pretty m).

(** [xs[mask]] on a 1-D array: the mask must have the length of the array. *)
Definition getitem_mask {A} (xs : list A) (mask : list bool) : exn + list A :=
  if decide (length mask = length xs) then inr (select mask xs)
  else inl (mask_mismatch (length xs) (length mask)).

(** [a[mask]] on a 2-D array: rows are selected, the column count stays. *)
Definition getitem_mask2 {F} (a : ndarray F) (mask : list bool) : exn + ndarray F :=
  match getitem_mask (rows a) mask with
  | inl e => inl e
  | inr rs => inr (NdArray rs (ncols a))
  end.

(** [np.where(preds == -1)[0]]: the positions holding [-1], ascending. *)
Fixpoint where_eq (v : Z) (from : nat) (preds : list Z) : list Z :=
  match preds with
  | [] => []
  | p :: rest =>
      (if decide (p = v) then [Z.of_nat from] else []) ++ where_eq v (S from) rest
  end.

(** [str.endswith] *)
Definition endswith (s suffix : string) : bool :=
  let n := String.length s in
  let m := String.length suffix in
  (m <=? n)%nat && String.eqb (substring (n - m) m s) suffix.

(** ** The world: one [Embedx] object, the heap of arrays, standard output *)

(** A location of the heap of 2-D arrays. *)
Definition loc := nat.

(** What the methods print. Each constructor stands for one [print] of
    [core.py] and carries the values interpolated in its f-string. *)
Inductive diag (F : Type) :=
| PrintShape (s : nat * nat)          (* "Embedding shape: {shape}" *)
| PrintMeanNorm (m : F)               (* "Mean norm: {mean:.4f}" *)
| PrintStdNorm (s : F)                (* "Std of norms: {std:.4f}" *)
| PrintFoundDuplicates (n : nat)      (* "Found {n} near-duplicates" *)
| PrintRemovingDuplicates (n : nat)   (* "Removing {n} near-duplicates" *)
| PrintFoundOutliers (n : nat)        (* "Found {n} outliers" *)
| PrintRemovingOutliers (n : nat)     (* "Removing {n} outliers" *)
| PrintZeroRemoved                    (* "Zero embeddings removed." *)
| PrintRemoved (n : nat)              (* "{n} embeddings have been removed." *)
| PrintNormalized (method : string).  (* "{method} normalization applied to embeddings." *)
Arguments PrintShape {F} _.
Arguments PrintMeanNorm {F} _.
Arguments PrintStdNorm {F} _.
Arguments PrintFoundDuplicates {F} _.
Arguments PrintRemovingDuplicates {F} _.
Arguments PrintFoundOutliers {F} _.
Arguments PrintRemovingOutliers {F} _.
Arguments PrintZeroRemoved {F}.
Arguments PrintRemoved {F} _.
Arguments PrintNormalized {F} _.

(** The attributes of an [Embedx] instance. [embeddings] is a reference to
    an array of the heap. [timestamps] and [labels] are [None] or 1-D numpy
    arrays, as the boolean-mask indexing of [_remove_indices] presupposes;
    no method writes into them (they are only rebound), so they are kept by
    value. *)
Record Embedx (T L : Type) := mkEmbedx {
  embeddings : loc;
  n_samples : nat;
  n_dim : nat;
  verbose : bool;
  timestamps : option (list T);
  labels : option (list L)
}.
Arguments mkEmbedx {T L} _ _ _ _ _ _.
Arguments embeddings {T L} _.
Arguments n_samples {T L} _.
Arguments n_dim {T L} _.
Arguments verbose {T L} _.
Arguments timestamps {T L} _.
Arguments labels {T L} _.

Record world (F T L : Type) := mkWorld {
  self : Embedx T L;
  heap : list (ndarray F);
  stdout : list (diag F)
}.
Arguments mkWorld {F T L} _ _ _.
Arguments self {F T L} _.
Arguments heap {F T L} _.
Arguments stdout {F T L} _.

(** The result of running a method. *)
Inductive outcome (W A : Type) :=
| Ok (a : A) (w : W)
| Raise (e : exn) (w : W).
Arguments Ok {W A} _ _.
Arguments Raise {W A} _ _.

(** The world in which a run ended, whether it returned or raised. *)
Definition final {W A} (o : outcome W A) : W :=
  match o with Ok _ w => w | Raise _ w => w end.

(** What the caller observes of a run: the value returned or the exception. *)
Definition result {W A} (o : outcome W A) : exn + A :=
  match o with Ok a _ => inr a | Raise e _ => inl e end.

(** The dictionary returned by [basic_stats]. *)
Record stats (F : Type) := mkStats {
  stats_shape : nat * nat;
  mean_norm : F;
  std_norm : F
}.
Arguments mkStats {F} _ _ _.
Arguments stats_shape {F} _.
Arguments mean_norm {F} _.
Arguments std_norm {F} _.

(** ** The libraries [core.py] calls *)

(** The libraries are parameters of the model. A library function is a
    function of the content of the arrays it is given and it may raise; it
    does not write into its arguments, with the exception of
    [faiss.normalize_L2], which works in place. *)

(** What [find_duplicates] uses of faiss. [normalize_L2] works in place; it is
    given as the function from the array's old content to its new content.
    [IndexFlatIP_search d added queries k] stands for
    [index = faiss.IndexFlatIP(d); index.add(added); index.search(queries, k)]
    and returns the pair [(distances, indices)]. *)
Record faiss_api (F : Type) := {
  astype_float32 : ndarray F -> ndarray F;
  normalize_L2 : ndarray F -> ndarray F;
  IndexFlatIP_search :
    nat -> ndarray F -> ndarray F -> Z -> exn + (list (list F) * list (list Z))
}.
Arguments astype_float32 {F} _ _.
Arguments normalize_L2 {F} _ _.
Arguments IndexFlatIP_search {F} _ _ _ _ _.

(** [kneighbors n fitted queries] stands for
    [nn = NearestNeighbors(n_neighbors=n, metric="cosine"); nn.fit(fitted);
     nn.kneighbors(queries)]. *)
Record sklearn_api (F : Type) := {
  kneighbors : Z -> ndarray F -> ndarray F -> exn + (list (list F) * list (list Z))
}.
Arguments kneighbors {F} _ _ _ _.

(** The module-level choice [FAISS_AVAILABLE], made once at import. *)
Inductive nn_backend (F : Type) :=
| Faiss (api : faiss_api F)
| Sklearn (api : sklearn_api F).
Arguments Faiss {F} _.
Arguments Sklearn {F} _.

(** [fit_predict c a] stands for
    [IsolationForest(contamination=c, random_state=42).fit_predict(a)];
    [np_load] and [np_loadtxt] read the file system as it is during the call. *)
Record libraries (F : Type) := {
  backend : nn_backend F;
  IsolationForest_fit_predict : F -> ndarray F -> exn + list Z;
  np_load : string -> exn + ndarray F;
  np_loadtxt : string -> exn + ndarray F
}.
Arguments backend {F} _.
Arguments IsolationForest_fit_predict {F} _ _ _.
Arguments np_load {F} _ _.
Arguments np_loadtxt {F} _ _.

(** ** Methods *)

Declare Scope py_scope.
Delimit Scope py_scope with py.

Section Methods.
Context {F T L : Type} `{Scalar F}.
Variable env : libraries F.

Definition M (A : Type) : Type := world F T L -> outcome (world F T L) A.

Definition ret {A} (a : A) : M A := fun w => Ok a w.

Definition bind {A B} (m : M A) (k : A -> M B) : M B :=
  fun w => match m w with
           | Ok a w' => k a w'
           | Raise e w' => Raise e w'
           end.

Definition raise {A} (e : exn) : M A := fun w => Raise e w.

(** A library call: its exception, if any, propagates. *)
Definition call {A} (r : exn + A) : M A :=
  match r with inl e => raise e | inr a => ret a end.

Notation "x <- c ;; k" := (bind c (fun x => k))
  (at level 100, c at next level, right associativity) : py_scope.
Notation "c ;; k" := (bind c (fun _ => k))
  (at level 100, right associativity) : py_scope.
Local Open Scope py_scope.

(** Reading and rebinding attributes of [self]. *)
Definition attr {A} (f : Embedx T L -> A) : M A := fun w => Ok (f (self w)) w.

Definition update_self (f : Embedx T L -> Embedx T L) : M unit :=
  fun w => Ok tt (mkWorld (f (self w)) (heap w) (stdout w)).

Definition assign_embeddings (l : loc) : M unit :=
  update_self (fun o => mkEmbedx l (n_samples o) (n_dim o) (verbose o) (timestamps o) (labels o)).
Definition assign_n_samples (n : nat) : M unit :=
  update_self (fun o => mkEmbedx (embeddings o) n (n_dim o) (verbose o) (timestamps o) (labels o)).
Definition assign_n_dim (d : nat) : M unit :=
  update_self (fun o => mkEmbedx (embeddings o) (n_samples o) d (verbose o) (timestamps o) (labels o)).
Definition assign_verbose (v : bool) : M unit :=
  update_self (fun o => mkEmbedx (embeddings o) (n_samples o) (n_dim o) v (timestamps o) (labels o)).
Definition assign_timestamps (ts : option (list T)) : M unit :=
  update_self (fun o => mkEmbedx (embeddings o) (n_samples o) (n_dim o) (verbose o) ts (labels o)).
Definition assign_labels (lb : option (list L)) : M unit :=
  update_self (fun o => mkEmbedx (embeddings o) (n_samples o) (n_dim o) (verbose o) (timestamps o) lb).

(** The heap: a new array object, the content of an array, writing into
    an existing array. *)
Definition new_array (a : ndarray F) : M loc :=
  fun w => Ok (length (heap w)) (mkWorld (self w) (heap w ++ [a]) (stdout w)).

Definition read_array (l : loc) : M (ndarray F) :=
  fun w => Ok (heap w !!! l) w.

Definition write_array (l : loc) (a : ndarray F) : M unit :=
  fun w => Ok tt (mkWorld (self w) (<[l := a]> (heap w)) (stdout w)).

Definition print (d : diag F) : M unit :=
  fun w => Ok tt (mkWorld (self w) (heap w) (stdout w ++ [d])).

(** [if self.verbose: print(...)] *)
Definition if_verbose (m : M unit) : M unit :=
  v <- attr verbose ;; if v then m else ret tt.

(** [Embedx.__init__] (lines 15-20). The object keeps a reference to the
    caller's array. *)
Definition __init__ (embeddings_arg : loc) (verbose_arg : bool)
    (timestamps_arg : option (list T)) (labels_arg : option (list L)) : M unit :=
  assign_embeddings embeddings_arg ;;
  a <- read_array embeddings_arg ;;
  assign_n_samples (fst (shape a)) ;;
  assign_n_dim (snd (shape a)) ;;
  assign_verbose verbose_arg ;;
  assign_timestamps timestamps_arg ;;
  assign_labels labels_arg.

(** [Embedx.set_labels] (lines 22-23) *)
Definition set_labels (labels_arg : option (list L)) : M unit :=
  assign_labels labels_arg.

(** [Embedx.set_timestamps] (lines 25-26) *)
Definition set_timestamps (timestamps_arg : option (list T)) : M unit :=
  assign_timestamps timestamps_arg.

(** [Embedx.get_dims] (lines 28-30) *)
Definition get_dims : M (nat * nat) :=
  e <- attr embeddings ;;
  a <- read_array e ;;
  assign_n_samples (fst (shape a)) ;;
  assign_n_dim (snd (shape a)) ;;
  n <- attr n_samples ;;
  d <- attr n_dim ;;
  ret (n, d).

(** [Embedx.load_embeddings] (lines 39-46), a static method: it returns a
    new array. *)
Definition load_embeddings (path : string) : M loc :=
  if endswith path ".npy" then
    a <- call (np_load env path) ;; new_array a
  else if endswith path ".csv" then
    a <- call (np_loadtxt env path) ;; new_array a
  else raise (ValueError "Unknown file format: must be .npy or .csv").

(** [Embedx.basic_stats] (lines 48-58) *)
Definition basic_stats : M (stats F) :=
  e <- attr embeddings ;;
  a <- read_array e ;;
  let norms := map norm_l2 (rows a) in
  if_verbose (print (PrintShape (shape a)) ;;
              print (PrintMeanNorm (f_mean norms)) ;;
              print (PrintStdNorm (f_std norms))) ;;
  ret (mkStats (shape a) (f_mean norms) (f_std norms)).

(** The inner loop of [find_duplicates] (lines 70-73 and 81-84), over
    [zip(dist_row[1:], index_row[1:])] with the first entries already
    dropped. [sim] is the identity in the faiss branch and [1 - dist] in the
    scikit-learn branch. *)
Fixpoint scan_neighbors (sim : F -> F) (threshold : F) (i : Z)
    (dist_row : list F) (index_row : list Z) : list (Z * Z * F) :=
  match dist_row, index_row with
  | dist :: dist_row', index :: index_row' =>
      (if f_ge (sim dist) threshold then
         if (i <? index)%Z then [(i, index, sim dist)] else []
       else [])
      ++ scan_neighbors sim threshold i dist_row' index_row'
  | _, _ => []
  end.

(** The outer loop (lines 69 and 80), over
    [enumerate(zip(distances, indices))] counted from [i]. *)
Fixpoint scan_rows (sim : F -> F) (threshold : F) (i : Z)
    (distances : list (list F)) (indices : list (list Z)) : list (Z * Z * F) :=
  match distances, indices with
  | dist_row :: distances', index_row :: indices' =>
      scan_neighbors sim threshold i (drop 1 dist_row) (drop 1 index_row)
      ++ scan_rows sim threshold (i + 1)%Z distances' indices'
  | _, _ => []
  end.

(** [Embedx.find_duplicates] (lines 60-88) *)
Definition find_duplicates (threshold : F) (neighbors : Z) : M (list (Z * Z * F)) :=
  duplicates <-
    match backend env with
    | Faiss faiss =>
        e <- attr embeddings ;;
        a <- read_array e ;;
        cast <- new_array (astype_float32 faiss a) ;;
        c <- read_array cast ;;
        emb <- new_array c ;;
        x <- read_array emb ;;
        write_array emb (normalize_L2 faiss x) ;;
        d <- attr n_dim ;;
        added <- read_array emb ;;
        queries <- read_array emb ;;
        r <- call (IndexFlatIP_search faiss d added queries (neighbors + 1)%Z) ;;
        ret (scan_rows (fun dist => dist) threshold 0%Z (fst r) (snd r))
    | Sklearn sklearn =>
        e <- attr embeddings ;;
        fitted <- read_array e ;;
        e' <- attr embeddings ;;
        queries <- read_array e' ;;
        r <- call (kneighbors sklearn neighbors fitted queries) ;;
        ret (scan_rows (fun dist => f_sub f_one dist) threshold 0%Z (fst r) (snd r))
    end ;;
  if_verbose (print (PrintFoundDuplicates (length duplicates))) ;;
  ret duplicates.

(** [Embedx._remove_indices] (lines 111-127). [removing] is the sequence
    [list(removing)]; the method returns [None] or the dictionary of
    [basic_stats]. *)
Definition _remove_indices (removing : list Z) : M (option (stats F)) :=
  if decide (length removing = 0) then
    if_verbose (print PrintZeroRemoved) ;;
    ret None
  else
    n <- attr n_samples ;;
    mask <- call (setitem_false (np_ones_bool n) removing) ;;
    e <- attr embeddings ;;
    a <- read_array e ;;
    a' <- call (getitem_mask2 a mask) ;;
    e' <- new_array a' ;;
    assign_embeddings e' ;;
    ts <- attr timestamps ;;
    match ts with
    | Some t => t' <- call (getitem_mask t mask) ;; assign_timestamps (Some t')
    | None => ret tt
    end ;;
    lb <- attr labels ;;
    match lb with
    | Some l => l' <- call (getitem_mask l mask) ;; assign_labels (Some l')
    | None => ret tt
    end ;;
    e2 <- attr embeddings ;;
    a2 <- read_array e2 ;;
    assign_n_dim (snd (shape a2)) ;;
    assign_n_samples (fst (shape a2)) ;;
    if_verbose (print (PrintRemoved (length removing))) ;;
    s <- basic_stats ;;
    ret (Some s).

(** The set comprehension [{index for (_, index, _) in duplicates}]. *)
Definition second_elements (duplicates : list (Z * Z * F)) : gset Z :=
  list_to_set (map (fun t => snd (fst t)) duplicates).

(** [Embedx.remove_duplicates] (lines 90-95) *)
Definition remove_duplicates (threshold : F) (neighbors : Z) : M unit :=
  duplicates <- find_duplicates threshold neighbors ;;
  let removing := second_elements duplicates in
  if_verbose (print (PrintRemovingDuplicates (size removing))) ;;
  _ <- _remove_indices (elements removing) ;;
  ret tt.

(** [Embedx.find_outliers] (lines 97-103) *)
Definition find_outliers (contamination : F) : M (list Z) :=
  e <- attr embeddings ;;
  a <- read_array e ;;
  preds <- call (IsolationForest_fit_predict env contamination a) ;;
  let outliers := where_eq (-1)%Z 0 preds in
  if_verbose (print (PrintFoundOutliers (length outliers))) ;;
  ret outliers.

(** [Embedx.remove_outliers] (lines 105-109) *)
Definition remove_outliers (contamination : F) : M unit :=
  outliers <- find_outliers contamination ;;
  if_verbose (print (PrintRemovingOutliers (length outliers))) ;;
  _ <- _remove_indices outliers ;;
  ret tt.

(** [embeddings / norms] with [norms] of shape (N, 1): every entry of row
    [r] is divided by [norms[r]]. *)
Definition divide_rows (rs : list (list F)) (norms : list F) : list (list F) :=
  zip_with (fun row n => map (fun x => f_div x n) row) rs norms.

(** [Embedx.normalize] (lines 175-186). [norms] is a new local array;
    [self.embeddings] is rebound to the new array of the quotient. *)
Definition normalize (method : string) : M unit :=
  norms <-
    (if String.eqb method "l2" then
       e <- attr embeddings ;; a <- read_array e ;; ret (map norm_l2 (rows a))
     else if String.eqb method "l1" then
       e <- attr embeddings ;; a <- read_array e ;; ret (map norm_l1 (rows a))
     else raise (ValueError ("Cannot normalize with unknown method: " +:+ method))) ;;
  let norms := map (fun n => if f_is_zero n then f_one else n) norms in
  e <- attr embeddings ;;
  a <- read_array e ;;
  e' <- new_array (NdArray (divide_rows (rows a) norms) (ncols a)) ;;
  assign_embeddings e' ;;
  if_verbose (print (PrintNormalized method)).

End Methods.

(** ** Two readings of the element type *)

(** *** binary64 floats, as numpy computes *)

(** Sums are taken from left to right; numpy adds pairwise, which can
    differ in the last bits on long arrays. *)

Definition f64_sum (xs : list float) : float :=
  fold_left PrimFloat.add xs 0%float.

(** The length of a list as a float (exact below 2^53). *)
Definition f64_of_length {A} (xs : list A) : float :=
  fold_left (fun n _ => PrimFloat.add n 1%float) xs 0%float.

Definition f64_mean (xs : list float) : float :=
  PrimFloat.div (f64_sum xs) (f64_of_length xs).

#[global] Instance float64_scalar : Scalar float := {
  f_one := 1%float;
  f_sub := PrimFloat.sub;
  f_div := PrimFloat.div;
  f_ge a b := PrimFloat.leb b a;
  f_is_zero a := PrimFloat.eqb a 0%float;
  norm_l2 row := PrimFloat.sqrt (f64_sum (map (fun x => PrimFloat.mul x x) row));
  norm_l1 row := f64_sum (map PrimFloat.abs row);
  f_mean := f64_mean;
  f_std xs :=
    let m := f64_mean xs in
    PrimFloat.sqrt
      (f64_mean (map (fun x => PrimFloat.mul (PrimFloat.sub x m) (PrimFloat.sub x m)) xs))
}.

(** *** real numbers, the idealised arithmetic *)

Definition R_sum (xs : list R) : R := fold_right Rplus 0%R xs.

Definition R_mean (xs : list R) : R := (R_sum xs / INR (length xs))%R.

#[global] Instance real_scalar : Scalar R := {
  f_one := 1%R;
  f_sub := Rminus;
  f_div := Rdiv;
  f_ge a b := if Rle_dec b a then true else false;
  f_is_zero a := if Req_dec_T a 0%R then true else false;
  norm_l2 row := R_sqrt.sqrt (R_sum (map (fun x => (x * x)%R) row));
  norm_l1 row := R_sum (map Rabs row);
  f_mean := R_mean;
  f_std xs :=
    let m := R_mean xs in
    R_sqrt.sqrt (R_mean (map (fun x => ((x - m) * (x - m))%R) xs))
}.

(** ** Observations of a world *)

Section Observations.
Context {F T L : Type}.

(** The matrix of the embedding set: the array [self.embeddings] refers to. *)
Definition matrix (w : world F T L) : ndarray F :=
  heap w !!! embeddings (self w).

(** Row [r] of the embedding set: the matrix row with the timestamp and the
    label stored at the same index, where these arrays are present. *)
Definition entry (w : world F T L) (r : nat)
  : option (list F * option T * option L) :=
  match rows (matrix w) !! r with
  | Some row =>
      Some (row,
            match timestamps (self w) with Some ts => ts !! r | None => None end,
            match labels (self w) with Some lb => lb !! r | None => None end)
  | None => None
  end.

(** The invariant of the data model: [self.embeddings] refers to an array
    of the heap, [n_samples] is its row count, and [timestamps] and
    [labels], when present, have one entry per row. *)
Definition well_formed (w : world F T L) : Prop :=
  embeddings (self w) < length (heap w) /\
  n_samples (self w) = length (rows (matrix w)) /\
  (forall ts, timestamps (self w) = Some ts ->
              length ts = length (rows (matrix w))) /\
  (forall lb, labels (self w) = Some lb ->
              length lb = length (rows (matrix w))).

(** The positions of [mask] holding [True], ascending, counted from [from]. *)
Fixpoint positions (from : nat) (mask : list bool) : list nat :=
  match mask with
  | [] => []
  | b :: mask' => (if b then [from] else []) ++ positions (S from) mask'
  end.

(** [w'] is [w] with the rows not kept by [mask] removed: the matrix and
    both parallel arrays are filtered by the same mask. *)
Definition filtered_by (mask : list bool) (w w' : world F T L) : Prop :=
  length mask = length (rows (matrix w)) /\
  rows (matrix w') = select mask (rows (matrix w)) /\
  ncols (matrix w') = ncols (matrix w) /\
  timestamps (self w') = select mask <$> timestamps (self w) /\
  labels (self w') = select mask <$> labels (self w).

(** What a caller can observe of the data of the embedding set. *)
Definition same_data (w w' : world F T L) : Prop :=
  matrix w' = matrix w /\
  timestamps (self w') = timestamps (self w) /\
  labels (self w') = labels (self w) /\
  n_samples (self w') = n_samples (self w) /\
  n_dim (self w') = n_dim (self w).

(** The world after printing the lines [ds]. *)
Definition printed (ds : list (diag F)) (w : world F T L) : world F T L :=
  mkWorld (self w) (heap w) (stdout w ++ ds).

(** The same world with the flag [verbose] set to [v]. *)
Definition with_verbose (v : bool) (w : world F T L) : world F T L :=
  mkWorld (mkEmbedx (embeddings (self w)) (n_samples (self w)) (n_dim (self w)) v
                    (timestamps (self w)) (labels (self w)))
          (heap w) (stdout w).

(** The dictionary [basic_stats] computes for the array [a], and the lines
    it prints when [verbose] is set. *)
Definition stats_of `{Scalar F} (a : ndarray F) : stats F :=
  mkStats (shape a) (f_mean (map norm_l2 (rows a))) (f_std (map norm_l2 (rows a))).

Definition stats_lines `{Scalar F} (a : ndarray F) : list (diag F) :=
  [PrintShape (shape a);
   PrintMeanNorm (f_mean (map norm_l2 (rows a)));
   PrintStdNorm (f_std (map norm_l2 (rows a)))].

(** The lines printed under [if self.verbose]. *)
Definition when_verbose (w : world F T L) (ds : list (diag F)) : list (diag F) :=
  if verbose (self w) then ds else [].

(** The world with the arrays [extra] added to the heap. *)
Definition grown (extra : list (ndarray F)) (w : world F T L) : world F T L :=
  mkWorld (self w) (heap w ++ extra) (stdout w).

(** The world [_remove_indices] builds from the keep-mask [mask], before it
    prints: a new array holds the kept rows, [self.embeddings] refers to it,
    and the parallel arrays and the dimensions are rebound. *)
Definition removed (mask : list bool) (w : world F T L) : world F T L :=
  let a' := NdArray (select mask (rows (matrix w))) (ncols (matrix w)) in
  mkWorld (mkEmbedx (length (heap w)) (length (rows a')) (ncols a') (verbose (self w))
                    (select mask <$> timestamps (self w))
                    (select mask <$> labels (self w)))
          (heap w ++ [a']) (stdout w).

(** The table of cosine similarities the neighbour search reports for the
    rows of the matrix, with the table of neighbour indices. faiss returns
    the inner products of the L2-normalised rows; scikit-learn returns cosine
    distances, which [find_duplicates] turns into similarities as
    [1 - dist]. *)
Definition similarities `{Scalar F} (env : libraries F) (neighbors : Z)
    (w : world F T L) : exn + (list (list F) * list (list Z)) :=
  match backend env with
  | Faiss faiss =>
      let emb := normalize_L2 faiss (astype_float32 faiss (matrix w)) in
      IndexFlatIP_search faiss (n_dim (self w)) emb emb (neighbors + 1)%Z
  | Sklearn sklearn =>
      match kneighbors sklearn neighbors (matrix w) (matrix w) with
      | inl e => inl e
      | inr r => inr (map (map (fun dist => f_sub f_one dist)) (fst r), snd r)
      end
  end.

(** The arrays [find_duplicates] creates while it runs: the float32 cast
    and its copy, normalised in place, in the faiss branch. *)
Definition scratch_arrays (env : libraries F) (w : world F T L) : list (ndarray F) :=
  match backend env with
  | Faiss faiss =>
      [astype_float32 faiss (matrix w);
       normalize_L2 faiss (astype_float32 faiss (matrix w))]
  | Sklearn _ => []
  end.

(** The divisor [normalize] uses for a row of norm [n]
    ([norms[norms == 0] = 1]). *)
Definition divisor `{Scalar F} (n : F) : F := if f_is_zero n then f_one else n.

(** The world [normalize] builds with the row norm [norm], before it
    prints: a new array holds the quotients and [self.embeddings] refers to
    it. *)
Definition normalized `{Scalar F} (norm : list F -> F) (w : world F T L) : world F T L :=
  let a := matrix w in
  mkWorld (mkEmbedx (length (heap w)) (n_samples (self w)) (n_dim (self w))
                    (verbose (self w)) (timestamps (self w)) (labels (self w)))
          (heap w ++ [NdArray (divide_rows (rows a) (map divisor (map norm (rows a))))
                              (ncols a)])
          (stdout w).

(** The keep-mask [_remove_indices] builds for [n] rows: all [True] except
    at the rows designated by [removing]; when an index is out of bounds no
    mask is built and no row is removed. *)
Definition keep_mask (n : nat) (removing : list Z) : list bool :=
  match setitem_false (np_ones_bool n) removing with
  | inr mask => mask
  | inl _ => np_ones_bool n
  end.

(** [w'] results from [w] by a row removal that keeps the parallel arrays in
    step: one mask filters the matrix and the arrays present, the result
    satisfies the invariant of the data model, and every row of the new set
    is a row of the old one, with its own timestamp and label, the kept rows
    appearing in their original order. *)
Definition aligned_removal (w w' : world F T L) : Prop :=
  exists mask,
    filtered_by mask w w' /\
    well_formed w' /\
    forall r', entry w' r' =
               match positions 0 mask !! r' with
               | Some r => entry w r
               | None => None
               end.

(** Two worlds that differ at most in the flag [verbose] and in what has
    been printed. *)
Definition same_but_verbose (w1 w2 : world F T L) : Prop :=
  heap w1 = heap w2 /\
  embeddings (self w1) = embeddings (self w2) /\
  n_samples (self w1) = n_samples (self w2) /\
  n_dim (self w1) = n_dim (self w2) /\
  timestamps (self w1) = timestamps (self w2) /\
  labels (self w1) = labels (self w2).

(** A computation whose result and effect on the data do not depend on
    [verbose]: run in two worlds that differ at most in the flag and in the
    output, it returns the same value or raises the same exception, and the
    worlds it ends in differ again at most in the flag and in the output. *)
Definition oblivious {A} (m : M A) : Prop :=
  forall w1 w2 : world F T L,
    same_but_verbose w1 w2 ->
    result (m w1) = result (m w2) /\
    same_but_verbose (final (m w1)) (final (m w2)).

(** A computation that only prints. *)
Definition silent (m : M unit) : Prop :=
  forall w : world F T L, exists ds, m w = Ok tt (printed ds w).

End Observations.

(** ** Running the model on floats *)

Module Demo.

(** The example of the specification: rows 0 and 1 are identical. *)
Definition example_matrix : ndarray float :=
  NdArray [[1; 0]; [1; 0]; [0; 1]]%float 2.

Definition example_world (v : bool) : world float nat string :=
  mkWorld (mkEmbedx 0 3 2 v (Some [10; 20; 30]) (Some ["a"; "b"; "c"]))
          [example_matrix] [].

(** The default threshold of [find_duplicates], 0.99, as the binary64
    value nearest to it. *)
Definition default_threshold : float := 0x1.fae147ae147aep-1%float.

(** An exhaustive neighbour search, standing for the two libraries: the
    candidates of a query are ranked by decreasing score, earlier rows
    first among equal scores. *)
Definition dot (u v : list float) : float :=
  f64_sum (zip_with PrimFloat.mul u v).

Definition cosine (u v : list float) : float :=
  PrimFloat.div (dot u v) (PrimFloat.mul (norm_l2 u) (norm_l2 v)).

Fixpoint insert_ranked (x : float * Z) (l : list (float * Z)) : list (float * Z) :=
  match l with
  | [] => [x]
  | y :: l' =>
      if PrimFloat.ltb (fst y) (fst x) then x :: y :: l' else y :: insert_ranked x l'
  end.

Fixpoint numbered (from : Z) (scores : list float) : list (float * Z) :=
  match scores with
  | [] => []
  | s :: scores' => (s, from) :: numbered (from + 1)%Z scores'
  end.

Definition ranked (scores : list float) : list (float * Z) :=
  fold_left (fun acc x => insert_ranked x acc) (numbered 0%Z scores) [].

Definition top (k : Z) (score : list float -> list float -> float)
    (added queries : ndarray float) : list (list (float * Z)) :=
  map (fun q => take (Z.to_nat k) (ranked (map (score q) (rows added)))) (rows queries).

Definition l2_normalized (a : ndarray float) : ndarray float :=
  NdArray (map (fun row =>
                  let n := norm_l2 row in
                  if PrimFloat.ltb 0%float n
                  then map (fun x => PrimFloat.div x n) row else row)
               (rows a))
          (ncols a).

Definition example_faiss : faiss_api float := {|
  astype_float32 a := a;
  normalize_L2 := l2_normalized;
  IndexFlatIP_search d added queries k :=
    let found := top k dot added queries in
    inr (map (map fst) found, map (map snd) found)
|}.

Definition example_sklearn : sklearn_api float := {|
  kneighbors n fitted queries :=
    if (Z.of_nat (length (rows fitted)) <? n)%Z
    then inl (ValueError "Expected n_neighbors <= n_samples_fit")
    else
      let found := top n cosine fitted queries in
      inr (map (map (fun c => PrimFloat.sub 1%float (fst c))) found, map (map snd) found)
|}.

(** An isolation forest that flags the last row, and an empty file
    system. *)
Definition example_libraries (b : nn_backend float) : libraries float := {|
  backend := b;
  IsolationForest_fit_predict _ a :=
    inr (replicate (length (rows a) - 1) 1%Z ++ [(-1)%Z])%list;
  np_load path := inl (Exn "FileNotFoundError" path);
  np_loadtxt path := inl (Exn "FileNotFoundError" path)
|}.

Definition with_sklearn : libraries float := example_libraries (Sklearn example_sklearn).
Definition with_faiss : libraries float := example_libraries (Faiss example_faiss).


Definition float_world : world float nat string :=
  mkWorld (mkEmbedx 0 2 2 false None None) [NdArray [[3; 4]; [0; 0]]%float 2] [].

End Demo.

(** * Properties *)

(** ** Index wrapping and masks *)

Lemma wrap_index_inr n i p :
  wrap_index n i = inr p ->
  p < n /\ (Z.of_nat p = i \/ Z.of_nat p = (i + Z.of_nat n)%Z).
Proof.
  unfold wrap_index. repeat case_decide; intros [= <-]; lia.
Qed.

Lemma wrap_index_in_range n i :
  (- Z.of_nat n <= i < Z.of_nat n)%Z -> exists p, wrap_index n i = inr p.
Proof.
  intros Hi. unfold wrap_index. repeat case_decide; eauto. lia.
Qed.


Lemma wrap_index_nonneg n i :
  (0 <= i < Z.of_nat n)%Z -> wrap_index n i = inr (Z.to_nat i).
Proof. intros Hi. unfold wrap_index. by rewrite decide_True. Qed.

Lemma setitem_false_length idxs : forall mask mask',
  setitem_false mask idxs = inr mask' -> length mask' = length mask.
Proof.
  induction idxs as [|i idxs IH]; simpl; intros mask mask'.
  - by intros [= ->].
  - destruct (wrap_index (length mask) i) as [e|p]; [done|].
    intros Hrun. apply IH in Hrun. by rewrite length_insert in Hrun.
Qed.

(** A position stays [True] exactly when it was [True] and no index of the
    list designates it. *)
Lemma setitem_false_true idxs : forall mask mask' p,
  setitem_false mask idxs = inr mask' ->
  (mask' !! p = Some true <->
   mask !! p = Some true /\
   forall i, i ∈ idxs -> wrap_index (length mask) i <> inr p).
Proof.
  induction idxs as [|i idxs IH]; simpl; intros mask mask' p.
  - intros [= ->]. split; [|tauto]. intros Hp. split; [done|].
    intros i Hi. by apply elem_of_nil in Hi.
  - destruct (wrap_index (length mask) i) as [e|q] eqn:Hq; [done|].
    intros Hrun. rewrite (IH _ _ p Hrun), length_insert.
    apply wrap_index_inr in Hq as Hlt. destruct Hlt as [Hlt _].
    destruct (decide (q = p)) as [->|Hne].
    + rewrite list_lookup_insert_eq by done. split; [intros [[=] _]|].
      intros [_ Hno]. exfalso. eapply Hno; [apply elem_of_cons; by left|done].
    + rewrite list_lookup_insert_ne by done. split.
      * intros [Hp Hno]. split; [done|]. intros j [->|Hj]%elem_of_cons; [|by apply Hno].
        rewrite Hq. by intros [= ->].
      * intros [Hp Hno]. split; [done|]. intros j Hj. apply Hno, elem_of_cons. by right.
Qed.

Lemma setitem_false_ok idxs : forall mask,
  (forall i, i ∈ idxs -> (- Z.of_nat (length mask) <= i < Z.of_nat (length mask))%Z) ->
  exists mask', setitem_false mask idxs = inr mask'.
Proof.
  induction idxs as [|i idxs IH]; simpl; intros mask Hin; [eauto|].
  destruct (wrap_index_in_range (length mask) i) as [p ->].
  { apply Hin, elem_of_cons. by left. }
  apply IH. intros j Hj. rewrite length_insert. apply Hin, elem_of_cons. by right.
Qed.


Lemma length_np_ones_bool n : length (np_ones_bool n) = n.
Proof. apply length_replicate. Qed.

Lemma select_ones {A} (xs : list A) : forall n,
  length xs <= n -> select (np_ones_bool n) xs = xs.
Proof.
  induction xs as [|x xs IH]; intros [|n] Hn; simpl in *; try done; try lia.
  f_equal. apply IH. lia.
Qed.

Lemma select_nil_r {A} (mask : list bool) : select mask (@nil A) = [].
Proof. by destruct mask as [|[] ?]. Qed.

Lemma length_select {A B} (mask : list bool) : forall (xs : list A) (ys : list B),
  length xs = length ys -> length (select mask xs) = length (select mask ys).
Proof.
  induction mask as [|b mask IH]; intros [|x xs] [|y ys] Hlen; simpl in *; try done.
  destruct b; simpl; auto.
Qed.

Lemma length_select_positions {A} (mask : list bool) : forall from (xs : list A),
  length mask = length xs -> length (select mask xs) = length (positions from mask).
Proof.
  induction mask as [|b mask IH]; intros from [|x xs] Hlen; simpl in *; try done.
  destruct b; simpl; auto.
Qed.

Lemma positions_lookup_ge mask : forall from r' r,
  positions from mask !! r' = Some r -> from <= r.
Proof.
  induction mask as [|b mask IH]; intros from r' r Hr; [done|].
  simpl in Hr. destruct b; simpl in Hr.
  - destruct r'; simpl in Hr; [injection Hr; lia|]. apply IH in Hr. lia.
  - apply IH in Hr. lia.
Qed.

(** The element at position [r'] of a selection is the element of the
    original array at the [r']-th kept position. *)
Lemma select_lookup {A} (mask : list bool) : forall from (xs : list A) r',
  length mask = length xs ->
  select mask xs !! r' =
  match positions from mask !! r' with
  | Some r => xs !! (r - from)
  | None => None
  end.
Proof.
  induction mask as [|b mask IH]; intros from [|x xs] r' Hlen; simpl in *; try done.
  assert (forall k, select mask xs !! k =
                    match positions (S from) mask !! k with
                    | Some r => (x :: xs) !! (r - from)
                    | None => None
                    end) as Htail.
  { intros k. rewrite (IH (S from)) by lia.
    destruct (positions (S from) mask !! k) as [r|] eqn:Hr; [|done].
    apply positions_lookup_ge in Hr.
    by replace (r - from) with (S (r - S from)) by lia. }
  destruct b; simpl; [|apply Htail].
  destruct r' as [|r']; simpl; [by rewrite Nat.sub_diag | apply Htail].
Qed.

(** The kept positions are the positions where the mask is [True]. *)
Lemma elem_of_positions mask : forall from r,
  r ∈ positions from mask <-> from <= r /\ mask !! (r - from) = Some true.
Proof.
  induction mask as [|b mask IH]; intros from r; simpl.
  - split; [by intros ?%elem_of_nil | by intros [_ ?]].
  - rewrite elem_of_app, IH. destruct (decide (r = from)) as [->|Hne].
    + rewrite Nat.sub_diag. simpl. destruct b.
      * split; [intros _; split; [lia|done]|]. intros _. left. apply list_elem_of_singleton. done.
      * split; [intros [?%elem_of_nil|[? _]]; [done|lia]|]. by intros [_ [=]].
    + split.
      * intros [Hin|[Hle Hlk]].
        { destruct b; [apply list_elem_of_singleton in Hin; done | by apply elem_of_nil in Hin]. }
        split; [lia|]. replace (r - from) with (S (r - S from)) by lia. done.
      * intros [Hle Hlk]. right. split; [lia|].
        replace (r - from) with (S (r - S from)) in Hlk by lia. done.
Qed.

Lemma lookup_np_ones_bool n r :
  np_ones_bool n !! r = Some true <-> r < n.
Proof.
  unfold np_ones_bool. rewrite lookup_replicate. split; [by intros [_ ?] | done].
Qed.

Lemma length_positions_ones n : forall from,
  length (positions from (np_ones_bool n)) = n.
Proof. induction n as [|n IH]; intros from; simpl; [done|]. by rewrite IH. Qed.

Lemma length_positions_insert_false mask : forall from p,
  mask !! p = Some true ->
  S (length (positions from (<[p := false]> mask))) = length (positions from mask).
Proof.
  induction mask as [|b mask IH]; intros from [|p] Hp; simpl in *; try done.
  - by injection Hp as ->.
  - rewrite !length_app, <- (IH (S from) p Hp). lia.
Qed.

(** Clearing distinct positions that are all [True] removes as many kept
    positions as there are indices. *)
Lemma length_positions_setitem_false idxs : forall mask mask' from,
  NoDup idxs ->
  (forall i, i ∈ idxs ->
     (0 <= i < Z.of_nat (length mask))%Z /\ mask !! Z.to_nat i = Some true) ->
  setitem_false mask idxs = inr mask' ->
  length (positions from mask') + length idxs = length (positions from mask).
Proof.
  induction idxs as [|i idxs IH]; simpl; intros mask mask' from Hnd Hin.
  - intros [= ->]. lia.
  - apply NoDup_cons in Hnd as [Hni Hnd].
    destruct (Hin i) as [Hi Htrue]; [apply elem_of_cons; by left|].
    rewrite wrap_index_nonneg by done. intros Hrun.
    apply IH with (from := from) in Hrun; [|done|].
    + rewrite <- (length_positions_insert_false mask from (Z.to_nat i)) by done. lia.
    + intros j Hj. rewrite length_insert.
      destruct (Hin j) as [Hjr Hjt]; [apply elem_of_cons; by right|].
      split; [done|]. rewrite list_lookup_insert_ne; [done|].
      intros Heq. apply Hni. replace i with j by lia. done.
Qed.

Lemma elem_of_map {A B} (f : A -> B) (l : list A) y :
  y ∈ map f l <-> exists x, y = f x /\ x ∈ l.
Proof.
  induction l as [|a l IH]; simpl.
  - split; [by intros ?%elem_of_nil | by intros (? & _ & ?%elem_of_nil)].
  - rewrite elem_of_cons, IH. split.
    + intros [->|(x & -> & Hx)]; [exists a | exists x]; rewrite elem_of_cons; auto.
    + intros (x & -> & [->|Hx]%elem_of_cons); [by left | right; eauto].
Qed.

(** ** Running the methods *)

Section Runs.
Context {F T L : Type} `{Scalar F}.
Implicit Types w : world F T L.

Arguments if_verbose : simpl never.
Arguments basic_stats : simpl never.

Lemma printed_nil w : printed [] w = w.
Proof. destruct w. unfold printed. simpl. by rewrite app_nil_r. Qed.

Lemma printed_printed ds1 ds2 w : printed ds2 (printed ds1 w) = printed (ds1 ++ ds2) w.
Proof. unfold printed. simpl. by rewrite app_assoc. Qed.

Lemma matrix_printed ds w : matrix (printed ds w) = matrix w.
Proof. done. Qed.

Lemma if_verbose_run (m : M unit) ds w :
  (forall w0, m w0 = Ok tt (printed ds w0)) ->
  if_verbose m w = Ok tt (printed (when_verbose w ds) w).
Proof.
  intros Hm. unfold if_verbose, bind, attr, when_verbose. simpl.
  destruct (verbose (self w)); [apply Hm|]. unfold ret. by rewrite printed_nil.
Qed.

Lemma if_verbose_print d w :
  if_verbose (print d) w = Ok tt (printed (when_verbose w [d]) w).
Proof. by apply if_verbose_run. Qed.

Lemma basic_stats_run w :
  basic_stats w =
  Ok (stats_of (matrix w)) (printed (when_verbose w (stats_lines (matrix w))) w).
Proof.
  unfold basic_stats, bind at 1 2 3. simpl.
  erewrite if_verbose_run; [done|].
  intros w0. unfold bind, print, printed. simpl. by rewrite <- !app_assoc.
Qed.

Lemma remove_indices_nil w :
  _remove_indices [] w = Ok None (printed (when_verbose w [PrintZeroRemoved]) w).
Proof.
  unfold _remove_indices. simpl. unfold bind. by rewrite if_verbose_print.
Qed.

Lemma remove_indices_raise removing e w :
  removing <> [] ->
  setitem_false (np_ones_bool (n_samples (self w))) removing = inl e ->
  _remove_indices removing w = Raise e w.
Proof.
  intros Hne Hmask. unfold _remove_indices.
  rewrite decide_False by (by destruct removing).
  unfold bind at 1 2. simpl. by rewrite Hmask.
Qed.

Lemma matrix_removed mask w :
  matrix (removed mask w) = NdArray (select mask (rows (matrix w))) (ncols (matrix w)).
Proof. unfold matrix at 1, removed. simpl. by apply list_lookup_total_middle. Qed.

Lemma matrix_grown extra w :
  embeddings (self w) < length (heap w) -> matrix (grown extra w) = matrix w.
Proof. intros Hlt. unfold matrix, grown. simpl. by apply lookup_total_app_l. Qed.

Lemma remove_indices_ok removing mask w :
  removing <> [] ->
  setitem_false (np_ones_bool (n_samples (self w))) removing = inr mask ->
  well_formed w ->
  _remove_indices removing w =
  Ok (Some (stats_of (matrix (removed mask w))))
     (printed (when_verbose w (PrintRemoved (length removing)
                               :: stats_lines (matrix (removed mask w))))
              (removed mask w)).
Proof.
  intros Hne Hmask (Href & Hn & Hts & Hlb).
  apply setitem_false_length in Hmask as Hlen. rewrite length_np_ones_bool, Hn in Hlen.
  unfold _remove_indices. rewrite decide_False by (by destruct removing).
  unfold bind at 1 2. simpl. rewrite Hmask. simpl.
  unfold bind at 1 2 3. simpl. unfold getitem_mask2, getitem_mask.
  fold (matrix w). rewrite decide_True by done. simpl.
  unfold bind at 1 2 3 4. simpl.
  destruct w as [[e n d v ts lb] h out]. simpl in *.
  unfold matrix in *. simpl in *.
  set (a' := NdArray (select mask (rows (h !!! e))) (ncols (h !!! e))).
  destruct ts as [ts|], lb as [lb|]; simpl;
    try specialize (Hts _ eq_refl); try specialize (Hlb _ eq_refl);
    unfold bind; simpl; rewrite ?decide_True by congruence; simpl;
    rewrite ?decide_True by congruence; simpl;
    rewrite list_lookup_total_middle by done;
    rewrite if_verbose_print, basic_stats_run;
    unfold ret; rewrite printed_printed; unfold removed, when_verbose, matrix; simpl;
    rewrite !list_lookup_total_middle by done; by destruct v.
Qed.

(** The triples of one row: the neighbours after the first that reach the
    threshold and have a larger index. *)
Lemma elem_of_scan_neighbors (sim : F -> F) thr i t : forall dist_row index_row,
  t ∈ scan_neighbors sim thr i dist_row index_row <->
  exists p dist index,
    dist_row !! p = Some dist /\ index_row !! p = Some index /\
    t = (i, index, sim dist) /\ f_ge (sim dist) thr = true /\ (i < index)%Z.
Proof.
  induction dist_row as [|d ds IH]; intros [|j js]; simpl.
  - split; [by intros ?%elem_of_nil | by intros (p & ? & ? & [=] & _)].
  - split; [by intros ?%elem_of_nil | by intros (p & ? & ? & [=] & _)].
  - split; [by intros ?%elem_of_nil | by intros (p & ? & ? & _ & [=] & _)].
  - rewrite elem_of_app, IH. split.
    + intros [Hhd|(p & dist & index & Hd & Hj & Ht)].
      * exists 0, d, j. destruct (f_ge (sim d) thr) eqn:Hge; [|by apply elem_of_nil in Hhd].
        destruct (i <? j)%Z eqn:Hlt; [|by apply elem_of_nil in Hhd].
        apply list_elem_of_singleton in Hhd. apply Z.ltb_lt in Hlt. done.
      * exists (S p), dist, index. done.
    + intros ([|p] & dist & index & Hd & Hj & Ht & Hge & Hlt); simpl in *.
      * injection Hd as ->. injection Hj as ->. left.
        rewrite Hge. apply Z.ltb_lt in Hlt. rewrite Hlt. by apply list_elem_of_singleton.
      * right. exists p, dist, index. done.
Qed.

(** The triples of [find_duplicates]: row [r], a neighbour position after
    the first, the index and the similarity found there. *)
Lemma elem_of_scan_rows (sim : F -> F) thr t : forall distances indices i,
  t ∈ scan_rows sim thr i distances indices <->
  exists r p dist_row index_row dist index,
    distances !! r = Some dist_row /\ indices !! r = Some index_row /\
    dist_row !! S p = Some dist /\ index_row !! S p = Some index /\
    t = ((i + Z.of_nat r)%Z, index, sim dist) /\
    f_ge (sim dist) thr = true /\ (i + Z.of_nat r < index)%Z.
Proof.
  induction distances as [|dr distances IH]; intros [|ir indices] i; simpl.
  - split; [by intros ?%elem_of_nil | by intros (r & ? & ? & ? & ? & ? & [=] & _)].
  - split; [by intros ?%elem_of_nil | by intros (r & ? & ? & ? & ? & ? & [=] & _)].
  - split; [by intros ?%elem_of_nil | by intros (r & ? & ? & ? & ? & ? & _ & [=] & _)].
  - rewrite elem_of_app, elem_of_scan_neighbors, IH. split.
    + intros [(p & dist & index & Hd & Hj & Ht & Hge & Hlt)
             |(r & p & dist_row & index_row & dist & index & Hdr & Hir & Hd & Hj & Ht & Hge & Hlt)].
      * exists 0, p, dr, ir, dist, index. rewrite lookup_drop in Hd. rewrite lookup_drop in Hj.
        replace (i + Z.of_nat 0)%Z with i by lia. done.
      * exists (S r), p, dist_row, index_row, dist, index.
        replace (i + Z.of_nat (S r))%Z with (i + 1 + Z.of_nat r)%Z by lia. done.
    + intros ([|r] & p & dist_row & index_row & dist & index & Hdr & Hir & Hd & Hj & Ht & Hge & Hlt);
        simpl in *.
      * injection Hdr as ->. injection Hir as ->. left. exists p, dist, index.
        rewrite !lookup_drop. replace (i + Z.of_nat 0)%Z with i in * by lia. done.
      * right. exists r, p, dist_row, index_row, dist, index.
        replace (i + Z.of_nat (S r))%Z with (i + 1 + Z.of_nat r)%Z in * by lia. done.
Qed.

Lemma scan_neighbors_map (sim : F -> F) thr i : forall dist_row index_row,
  scan_neighbors sim thr i dist_row index_row =
  scan_neighbors (fun dist => dist) thr i (map sim dist_row) index_row.
Proof.
  induction dist_row as [|d ds IH]; intros [|j js]; simpl; try done.
  by rewrite IH.
Qed.

Lemma scan_rows_map (sim : F -> F) thr : forall distances indices i,
  scan_rows sim thr i distances indices =
  scan_rows (fun dist => dist) thr i (map (map sim) distances) indices.
Proof.
  induction distances as [|dr distances IH]; intros [|ir indices] i; simpl; try done.
  rewrite IH, scan_neighbors_map. do 2 f_equal. by destruct dr.
Qed.

(** [find_duplicates] returns the scan of the similarity table, or raises
    what the neighbour search raises; either way it leaves the object as it
    was and only adds its scratch arrays to the heap. *)
Lemma find_duplicates_run (env : libraries F) thr k w :
  find_duplicates env thr k w =
  match similarities env k w with
  | inl e => Raise e (grown (scratch_arrays env w) w)
  | inr r =>
      let duplicates := scan_rows (fun dist => dist) thr 0%Z (fst r) (snd r) in
      Ok duplicates
         (printed (when_verbose w [PrintFoundDuplicates (length duplicates)])
                  (grown (scratch_arrays env w) w))
  end.
Proof.
  unfold find_duplicates, similarities, scratch_arrays.
  destruct (backend env) as [faiss|sklearn].
  - unfold bind, matrix. simpl.
    rewrite (list_lookup_total_middle (heap w) [] _ (length (heap w)) eq_refl).
    set (c := astype_float32 faiss (heap w !!! embeddings (self w))).
    rewrite (list_lookup_total_middle (heap w ++ [c]) [] c _ eq_refl).
    rewrite insert_app_r_alt by done. rewrite Nat.sub_diag. simpl.
    rewrite (list_lookup_total_middle (heap w ++ [c]) [] _ _ eq_refl).
    destruct (IndexFlatIP_search _ _ _ _ _) as [e|r]; simpl.
    + unfold grown. simpl. by rewrite <- app_assoc.
    + rewrite if_verbose_print. unfold ret, grown, when_verbose. simpl.
      by rewrite <- app_assoc.
  - unfold bind, matrix. simpl.
    destruct (kneighbors _ _ _ _) as [e|r]; simpl.
    + unfold grown. simpl. rewrite app_nil_r. by destruct w.
    + rewrite if_verbose_print. unfold ret, grown, when_verbose. simpl.
      rewrite app_nil_r, <- scan_rows_map. by destruct w.
Qed.

Lemma find_outliers_run (env : libraries F) c w :
  find_outliers env c w =
  match IsolationForest_fit_predict env c (matrix w) with
  | inl e => Raise e w
  | inr preds =>
      let outliers := where_eq (-1)%Z 0 preds in
      Ok outliers (printed (when_verbose w [PrintFoundOutliers (length outliers)]) w)
  end.
Proof.
  unfold find_outliers, bind, matrix. simpl.
  destruct (IsolationForest_fit_predict _ _ _) as [e|preds]; simpl; [done|].
  by rewrite if_verbose_print.
Qed.

(** *** Worlds that differ in output and scratch arrays only *)

Lemma well_formed_printed ds w : well_formed w -> well_formed (printed ds w).
Proof. done. Qed.

Lemma well_formed_grown extra w : well_formed w -> well_formed (grown extra w).
Proof.
  intros (Href & Hn & Hts & Hlb). unfold well_formed.
  rewrite matrix_grown by done. split_and!; try done.
  unfold grown. simpl. rewrite length_app. lia.
Qed.

Lemma same_data_printed_grown ds extra w :
  embeddings (self w) < length (heap w) -> same_data w (printed ds (grown extra w)).
Proof.
  intros Href. unfold same_data. rewrite matrix_printed, matrix_grown by done. done.
Qed.

Lemma same_data_printed ds w : same_data w (printed ds w).
Proof. done. Qed.

(** *** One mask for the matrix and the parallel arrays *)

Lemma filtered_by_ones w w' :
  well_formed w -> same_data w w' ->
  filtered_by (np_ones_bool (n_samples (self w))) w w'.
Proof.
  intros (Href & Hn & Hts & Hlb) (Hm & Hts' & Hlb' & _).
  unfold filtered_by. rewrite length_np_ones_bool, Hm, Hts', Hlb'.
  split_and!; try done.
  - by rewrite select_ones by lia.
  - destruct (timestamps (self w)) as [ts|]; [|done]. simpl.
    by rewrite select_ones by (rewrite (Hts _ eq_refl); lia).
  - destruct (labels (self w)) as [lb|]; [|done]. simpl.
    by rewrite select_ones by (rewrite (Hlb _ eq_refl); lia).
Qed.

Lemma filtered_by_removed mask ds w :
  length mask = length (rows (matrix w)) ->
  filtered_by mask w (printed ds (removed mask w)).
Proof.
  intros Hlen. unfold filtered_by. rewrite matrix_printed, matrix_removed. done.
Qed.

Lemma well_formed_removed mask w :
  well_formed w -> length mask = length (rows (matrix w)) ->
  well_formed (removed mask w).
Proof.
  intros (Href & Hn & Hts & Hlb) Hlen. unfold well_formed.
  rewrite matrix_removed. simpl. split_and!; try done.
  - rewrite length_app. simpl. lia.
  - intros ts' Hts'. destruct (timestamps (self w)) as [ts|]; [|done].
    injection Hts' as <-. apply length_select. by apply Hts.
  - intros lb' Hlb'. destruct (labels (self w)) as [lb|]; [|done].
    injection Hlb' as <-. apply length_select. by apply Hlb.
Qed.

(** Filtering by one mask keeps every row with its own timestamp and
    label. *)
Lemma filtered_entries mask w w' r' :
  well_formed w -> filtered_by mask w w' ->
  entry w' r' =
  match positions 0 mask !! r' with
  | Some r => entry w r
  | None => None
  end.
Proof.
  intros (Href & Hn & Hts & Hlb) (Hlen & Hrows & _ & Hts' & Hlb').
  unfold entry. rewrite Hrows, Hts', Hlb'.
  rewrite (select_lookup mask 0) by done.
  destruct (positions 0 mask !! r') as [r|] eqn:Hr; [|done].
  rewrite Nat.sub_0_r.
  destruct (rows (matrix w) !! r) as [row|]; [|done]. do 2 f_equal.
  - f_equal. destruct (timestamps (self w)) as [ts|]; [|done]. simpl.
    rewrite (select_lookup mask 0), Hr, Nat.sub_0_r; [done|].
    by rewrite (Hts _ eq_refl).
  - destruct (labels (self w)) as [lb|]; [|done]. simpl.
    rewrite (select_lookup mask 0), Hr, Nat.sub_0_r; [done|].
    by rewrite (Hlb _ eq_refl).
Qed.

Lemma aligned_removal_intro mask w w' :
  well_formed w -> well_formed w' -> filtered_by mask w w' -> aligned_removal w w'.
Proof.
  intros Hw Hw' Hf. exists mask. split_and!; try done.
  intros r'. by apply filtered_entries.
Qed.

Lemma length_keep_mask n removing : length (keep_mask n removing) = n.
Proof.
  unfold keep_mask. destruct (setitem_false _ _) as [e|mask] eqn:Hmask.
  - apply length_np_ones_bool.
  - apply setitem_false_length in Hmask. by rewrite length_np_ones_bool in Hmask.
Qed.

(** The world [_remove_indices] ends in, whatever the indices: filtered by
    the keep-mask, and well formed. *)
Lemma remove_indices_final removing w :
  well_formed w ->
  filtered_by (keep_mask (n_samples (self w)) removing) w
              (final (_remove_indices removing w)) /\
  well_formed (final (_remove_indices removing w)).
Proof.
  intros Hw. unfold keep_mask.
  destruct removing as [|i removing].
  - rewrite remove_indices_nil. simpl. split.
    + by apply filtered_by_ones.
    + by apply well_formed_printed.
  - destruct (setitem_false _ _) as [e|mask] eqn:Hmask.
    + rewrite (remove_indices_raise _ e) by done. simpl. split; [|done].
      by apply filtered_by_ones.
    + rewrite (remove_indices_ok _ mask) by done. simpl.
      apply setitem_false_length in Hmask as Hlen. rewrite length_np_ones_bool in Hlen.
      destruct Hw as (Href & Hn & Hts & Hlb). rewrite Hn in Hlen. split.
      * by apply filtered_by_removed.
      * apply well_formed_printed, well_formed_removed; done.
Qed.

Lemma aligned_removal_same_data w w1 w' :
  well_formed w -> same_data w w1 -> aligned_removal w1 w' -> aligned_removal w w'.
Proof.
  intros Hw (Hm & Hts & Hlb & Hn & Hd) (mask & (Hlen & Hrows & Hcols & Hts' & Hlb') & Hw' & _).
  apply (aligned_removal_intro mask); [done..|].
  unfold filtered_by. by rewrite <- Hm, <- Hts, <- Hlb.
Qed.

Lemma well_formed_same_data w w1 :
  well_formed w -> same_data w w1 -> embeddings (self w1) < length (heap w1) ->
  well_formed w1.
Proof.
  intros (Href & Hn & Hts & Hlb) (Hm & Hts' & Hlb' & Hn' & _) Href'.
  unfold well_formed. rewrite Hm, Hts', Hlb', Hn'. done.
Qed.

(** *** The removals built on [_remove_indices] *)

Lemma remove_duplicates_run (env : libraries F) thr k w :
  remove_duplicates env thr k w =
  match similarities env k w with
  | inl e => Raise e (grown (scratch_arrays env w) w)
  | inr r =>
      let duplicates := scan_rows (fun dist => dist) thr 0%Z (fst r) (snd r) in
      let removing := second_elements duplicates in
      match _remove_indices (elements removing)
              (printed (when_verbose w [PrintFoundDuplicates (length duplicates);
                                        PrintRemovingDuplicates (size removing)])
                       (grown (scratch_arrays env w) w)) with
      | Ok _ w' => Ok tt w'
      | Raise e w' => Raise e w'
      end
  end.
Proof.
  unfold remove_duplicates. unfold bind at 1. rewrite find_duplicates_run.
  destruct (similarities env k w) as [e|r]; [done|]. simpl.
  unfold bind at 1. rewrite if_verbose_print, printed_printed.
  unfold bind, when_verbose. simpl. by destruct (verbose (self w)).
Qed.

Lemma remove_outliers_run (env : libraries F) c w :
  remove_outliers env c w =
  match IsolationForest_fit_predict env c (matrix w) with
  | inl e => Raise e w
  | inr preds =>
      let outliers := where_eq (-1)%Z 0 preds in
      match _remove_indices outliers
              (printed (when_verbose w [PrintFoundOutliers (length outliers);
                                        PrintRemovingOutliers (length outliers)]) w) with
      | Ok _ w' => Ok tt w'
      | Raise e w' => Raise e w'
      end
  end.
Proof.
  unfold remove_outliers. unfold bind at 1. rewrite find_outliers_run.
  destruct (IsolationForest_fit_predict env c (matrix w)) as [e|preds]; [done|]. simpl.
  unfold bind at 1. rewrite if_verbose_print, printed_printed.
  unfold bind, when_verbose. simpl. by destruct (verbose (self w)).
Qed.

Lemma final_discard {A} (o : outcome (world F T L) A) :
  final (match o with Ok _ w' => Ok tt w' | Raise e w' => Raise e w' end) = final o.
Proof. by destruct o. Qed.

Lemma remove_indices_aligned removing w :
  well_formed w -> aligned_removal w (final (_remove_indices removing w)).
Proof.
  intros Hw. destruct (remove_indices_final removing w Hw) as [Hf Hw'].
  by eapply aligned_removal_intro.
Qed.

Lemma aligned_removal_refl w w' :
  well_formed w -> same_data w w' -> embeddings (self w') < length (heap w') ->
  aligned_removal w w'.
Proof.
  intros Hw Hsame Href.
  eapply aligned_removal_intro; [done| |by apply filtered_by_ones].
  by eapply well_formed_same_data.
Qed.

End Runs.

Section InRange.
Context {F T L : Type} `{Scalar F}.
Implicit Types w : world F T L.

(** A row is kept exactly when no index of [removing] designates it. *)
Lemma keep_mask_true n removing r :
  (forall i, i ∈ removing -> (- Z.of_nat n <= i < Z.of_nat n)%Z) ->
  (keep_mask n removing !! r = Some true <->
   r < n /\ forall i, i ∈ removing -> wrap_index n i <> inr r).
Proof.
  intros Hin. unfold keep_mask.
  destruct (setitem_false_ok removing (np_ones_bool n)) as [mask Hmask].
  { by rewrite length_np_ones_bool. }
  rewrite Hmask, (setitem_false_true _ _ _ r Hmask).
  by rewrite lookup_np_ones_bool, length_np_ones_bool.
Qed.

(** With every index in [-N, N) the removal returns normally. *)
Lemma remove_indices_in_range removing w :
  well_formed w ->
  (forall i, i ∈ removing ->
     (- Z.of_nat (n_samples (self w)) <= i < Z.of_nat (n_samples (self w)))%Z) ->
  exists ret w', _remove_indices removing w = Ok ret w'.
Proof.
  intros Hw Hin. destruct removing as [|i removing].
  - rewrite remove_indices_nil. eauto.
  - destruct (setitem_false_ok (i :: removing) (np_ones_bool (n_samples (self w))))
      as [mask Hmask].
    { by rewrite length_np_ones_bool. }
    rewrite (remove_indices_ok _ mask) by done. eauto.
Qed.

End InRange.

(** ** Row removal (C1) *)

Section RowRemoval.
Context {F T L : Type} `{Scalar F}.
Variable env : libraries F.
Implicit Types w : world F T L.

(** C1. On an embedding set that satisfies the invariant of the data model,
    every row-removing operation ([_remove_indices], and through it
    [remove_duplicates] and [remove_outliers]) ends, whether it returns or
    raises, in a world obtained by filtering the matrix and each present
    parallel array with one and the same keep-mask (for [_remove_indices],
    the mask built from the index set): afterwards the row counts of matrix,
    timestamps and labels are equal, and every surviving row is still paired
    with the timestamp and the label of its original source row. *)
Theorem row_removal_keeps_alignment w removing threshold neighbors contamination :
  well_formed w ->
  filtered_by (keep_mask (n_samples (self w)) removing) w
              (final (_remove_indices removing w)) /\
  aligned_removal w (final (_remove_indices removing w)) /\
  aligned_removal w (final (remove_duplicates env threshold neighbors w)) /\
  aligned_removal w (final (remove_outliers env contamination w)).
Proof.
  intros Hw. pose proof Hw as (Href & _).
  split; [by apply remove_indices_final|]. split; [|split].
  - by apply remove_indices_aligned.
  - rewrite remove_duplicates_run.
    destruct (similarities env neighbors w) as [e|r]; simpl.
    + apply aligned_removal_refl; [done| |].
      * rewrite <- (printed_nil (grown _ w)). by apply same_data_printed_grown.
      * unfold grown. simpl. rewrite length_app. lia.
    + rewrite final_discard.
      eapply aligned_removal_same_data; [done| |apply remove_indices_aligned].
      * by apply same_data_printed_grown.
      * by apply well_formed_printed, well_formed_grown.
  - rewrite remove_outliers_run.
    destruct (IsolationForest_fit_predict env contamination (matrix w)) as [e|preds]; simpl.
    + by apply aligned_removal_refl.
    + rewrite final_discard.
      eapply aligned_removal_same_data; [done| |apply remove_indices_aligned].
      * apply same_data_printed.
      * by apply well_formed_printed.
Qed.

End RowRemoval.

(** ** Duplicate detection and removal (C2, C3) *)

Section Duplicates.
Context {F T L : Type} `{Scalar F}.
Variable env : libraries F.
Implicit Types w : world F T L.

(** The triples [find_duplicates] returns, read off the similarity table:
    row [r], a neighbour position after the first, the index [j] and the
    similarity [s] found there, with [s >= threshold] and [r < j]. *)
Lemma elem_of_find_duplicates w threshold neighbors duplicates w' t :
  find_duplicates env threshold neighbors w = Ok duplicates w' ->
  (t ∈ duplicates <->
   exists table indices r p sim_row index_row s j,
     similarities env neighbors w = inr (table, indices) /\
     table !! r = Some sim_row /\ indices !! r = Some index_row /\
     sim_row !! S p = Some s /\ index_row !! S p = Some j /\
     t = (Z.of_nat r, j, s) /\
     f_ge s threshold = true /\ (Z.of_nat r < j)%Z).
Proof.
  rewrite find_duplicates_run.
  destruct (similarities env neighbors w) as [e|[table indices]]; [done|].
  simpl. intros [= <- _]. rewrite elem_of_scan_rows. split.
  - intros (r & p & sim_row & index_row & s & j & Hr & Hr' & Hs & Hj & Ht & Hge & Hlt).
    exists table, indices, r, p, sim_row, index_row, s, j. done.
  - intros (table' & indices' & r & p & sim_row & index_row & s & j
            & [= <- <-] & Hr & Hr' & Hs & Hj & Ht & Hge & Hlt).
    exists r, p, sim_row, index_row, s, j. done.
Qed.




End Duplicates.

(** ** The removal primitive on the empty set and out of bounds (C4, C5) *)

Section RemovalEdges.
Context {F T L : Type} `{Scalar F}.
Implicit Types w : world F T L.

(** C4. [_remove_indices] applied to the empty index set leaves matrix,
    timestamps, labels, N and D unchanged, but it returns [None] (the bare
    [return] of line 115), whereas [basic_stats] returns the dictionary of
    the current statistics, as [_remove_indices] does on its other path
    (line 127). *)
Theorem remove_indices_empty_returns_none w :
  same_data w (final (_remove_indices [] w)) /\
  result (_remove_indices [] w) = inr None /\
  result (basic_stats w) = inr (stats_of (matrix w)) /\
  result (_remove_indices [] w) <> inr (Some (stats_of (matrix w))).
Proof.
  rewrite remove_indices_nil, basic_stats_run. simpl. split_and!; done.
Qed.


End RemovalEdges.

(** ** Construction and the setters (C6) *)

Section Construction.
Context {F T L : Type}.
Implicit Types w : world F T L.

(** C6, as the code has it. Construction and the two setters validate
    nothing: [__init__] returns normally for any timestamps and labels,
    stores them as given next to the shape of the matrix, and [set_labels]
    and [set_timestamps] return normally and rebind their attribute only. *)
Theorem construction_and_setters_accept_any_length w emb v ts lb :
  __init__ emb v ts lb w =
    Ok tt (mkWorld (mkEmbedx emb (fst (shape (heap w !!! emb)))
                             (snd (shape (heap w !!! emb))) v ts lb)
                   (heap w) (stdout w)) /\
  set_labels lb w =
    Ok tt (mkWorld (mkEmbedx (embeddings (self w)) (n_samples (self w)) (n_dim (self w))
                             (verbose (self w)) (timestamps (self w)) lb)
                   (heap w) (stdout w)) /\
  set_timestamps ts w =
    Ok tt (mkWorld (mkEmbedx (embeddings (self w)) (n_samples (self w)) (n_dim (self w))
                             (verbose (self w)) ts (labels (self w)))
                   (heap w) (stdout w)).
Proof. done. Qed.

End Construction.

(** ** Loading (C7) *)

Section Loading.
Context {F T L : Type}.
Variable env : libraries F.
Implicit Types w : world F T L.

(** C7, as the code has it. For a path that ends neither in ".npy" nor in
    ".csv", [load_embeddings] raises [ValueError] and does nothing else. *)
Theorem load_embeddings_unknown_format w path :
  endswith path ".npy" = false ->
  endswith path ".csv" = false ->
  load_embeddings env path w =
  Raise (ValueError "Unknown file format: must be .npy or .csv") w.
Proof.
  intros Hnpy Hcsv. unfold load_embeddings. by rewrite Hnpy, Hcsv.
Qed.

End Loading.

(** ** Normalisation (C8) *)

Section NormalizeRuns.
Context {F T L : Type} `{Scalar F}.
Implicit Types w : world F T L.

Lemma normalize_l2_run w :
  normalize "l2" w =
  Ok tt (printed (when_verbose w [PrintNormalized "l2"]) (normalized norm_l2 w)).
Proof.
  unfold normalize. simpl. unfold bind. simpl. by rewrite if_verbose_print.
Qed.

Lemma normalize_l1_run w :
  normalize "l1" w =
  Ok tt (printed (when_verbose w [PrintNormalized "l1"]) (normalized norm_l1 w)).
Proof.
  unfold normalize. simpl. unfold bind. simpl. by rewrite if_verbose_print.
Qed.


Lemma divide_rows_map (g : list F -> F) (rs : list (list F)) :
  divide_rows rs (map g rs) = map (fun row => map (fun x => f_div x (g row)) row) rs.
Proof. induction rs as [|row rs IH]; simpl; [done|]. by rewrite <- IH. Qed.

Lemma lookup_map {A B} (f : A -> B) (l : list A) : forall i,
  map f l !! i = f <$> l !! i.
Proof. induction l as [|a l IH]; intros [|i]; simpl; done. Qed.

(** Every row of the normalised matrix is the row divided by its divisor. *)
Lemma normalized_rows (norm : list F -> F) w :
  rows (matrix (normalized norm w)) =
  map (fun row => map (fun x => f_div x (divisor (norm row))) row) (rows (matrix w)).
Proof.
  unfold matrix at 1, normalized. simpl.
  rewrite list_lookup_total_middle by done. simpl.
  by rewrite map_map, (divide_rows_map (fun row => divisor (norm row))).
Qed.


End NormalizeRuns.

Section NormalizeReals.
Context {T L : Type}.
Implicit Types w : world R T L.
Local Open Scope R_scope.














End NormalizeReals.

(** ** The flag [verbose] (C9) *)

Section Verbose.
Context {F T L : Type} `{Scalar F}.
Variable env : libraries F.
Implicit Types w : world F T L.

Lemma same_but_verbose_refl w : same_but_verbose w w.
Proof. by unfold same_but_verbose. Qed.

Lemma same_but_verbose_with_verbose v1 v2 w :
  same_but_verbose (with_verbose v1 w) (with_verbose v2 w).
Proof. by unfold same_but_verbose. Qed.

Lemma oblivious_ret {A} (a : A) : oblivious (T:=T) (L:=L) (F:=F) (ret a).
Proof. by intros w1 w2 Hs. Qed.

Lemma oblivious_raise {A} e : oblivious (T:=T) (L:=L) (F:=F) (raise (A:=A) e).
Proof. by intros w1 w2 Hs. Qed.

Lemma oblivious_call {A} (r : exn + A) : oblivious (T:=T) (L:=L) (F:=F) (call r).
Proof. destruct r; [apply oblivious_raise | apply oblivious_ret]. Qed.

Lemma oblivious_bind {A B} (m : M (F:=F) (T:=T) (L:=L) A) (k : A -> M B) :
  oblivious m -> (forall a, oblivious (k a)) -> oblivious (bind m k).
Proof.
  intros Hm Hk w1 w2 Hs. destruct (Hm w1 w2 Hs) as [Hr Hf]. unfold bind.
  destruct (m w1) as [a1 w1'|e1 w1'], (m w2) as [a2 w2'|e2 w2']; simpl in *; try done.
  - simplify_eq. by apply Hk.
  - by simplify_eq.
Qed.

Lemma oblivious_attr {A} (f : Embedx T L -> A) :
  (forall o v, f (mkEmbedx (embeddings o) (n_samples o) (n_dim o) v
                           (timestamps o) (labels o)) = f o) ->
  oblivious (F:=F) (attr f).
Proof.
  intros Hf w1 w2 Hs. split; [|done]. simpl. f_equal.
  destruct Hs as (_ & He & Hn & Hd & Hts & Hlb).
  destruct (self w1) as [e1 n1 d1 v1 ts1 lb1], (self w2) as [e2 n2 d2 v2 ts2 lb2].
  simpl in *. subst. rewrite <- (Hf _ v2). done.
Qed.

Lemma oblivious_update_self (f : Embedx T L -> Embedx T L) :
  (forall o1 o2,
     embeddings o1 = embeddings o2 -> n_samples o1 = n_samples o2 ->
     n_dim o1 = n_dim o2 -> timestamps o1 = timestamps o2 -> labels o1 = labels o2 ->
     embeddings (f o1) = embeddings (f o2) /\ n_samples (f o1) = n_samples (f o2) /\
     n_dim (f o1) = n_dim (f o2) /\ timestamps (f o1) = timestamps (f o2) /\
     labels (f o1) = labels (f o2)) ->
  oblivious (F:=F) (update_self f).
Proof.
  intros Hf w1 w2 (Hh & He & Hn & Hd & Hts & Hlb). split; [done|].
  unfold same_but_verbose. simpl. split; [done|]. by apply Hf.
Qed.

Lemma oblivious_new_array (a : ndarray F) : oblivious (T:=T) (L:=L) (new_array a).
Proof.
  intros w1 w2 (Hh & Hrest). unfold same_but_verbose. simpl. by rewrite Hh.
Qed.

Lemma oblivious_read_array l : oblivious (F:=F) (T:=T) (L:=L) (read_array l).
Proof.
  intros w1 w2 (Hh & Hrest). unfold same_but_verbose. simpl. by rewrite Hh.
Qed.

Lemma oblivious_write_array l (a : ndarray F) : oblivious (T:=T) (L:=L) (write_array l a).
Proof.
  intros w1 w2 (Hh & Hrest). unfold same_but_verbose. simpl. by rewrite Hh.
Qed.

Lemma silent_print (d : diag F) : silent (T:=T) (L:=L) (print d).
Proof. intros w. by exists [d]. Qed.

Lemma silent_bind (m : M (F:=F) (T:=T) (L:=L) unit) (k : M unit) :
  silent m -> silent k -> silent (bind m (fun _ => k)).
Proof.
  intros Hm Hk w. destruct (Hm w) as [ds1 Hm1]. destruct (Hk (printed ds1 w)) as [ds2 Hk2].
  exists (ds1 ++ ds2)%list. unfold bind. by rewrite Hm1, Hk2, printed_printed.
Qed.

(** Printing under [if self.verbose] is the one place where the flag is
    read; it changes the output only. *)
Lemma oblivious_if_verbose (m : M (F:=F) (T:=T) (L:=L) unit) :
  silent m -> oblivious (if_verbose m).
Proof.
  intros Hm w1 w2 Hs.
  assert (forall w, result (if_verbose m w) = inr tt /\
                    same_but_verbose w (final (if_verbose m w))) as Hrun.
  { intros w. unfold if_verbose, bind, attr. simpl.
    destruct (verbose (self w)); [|done].
    destruct (Hm w) as [ds ->]. done. }
  destruct (Hrun w1) as [-> Hs1], (Hrun w2) as [-> Hs2]. split; [done|].
  destruct Hs as (? & ? & ? & ? & ? & ?), Hs1 as (? & ? & ? & ? & ? & ?),
    Hs2 as (? & ? & ? & ? & ? & ?).
  unfold same_but_verbose. split_and!; congruence.
Qed.

(** Stepping through a method: every primitive other than the test of
    [verbose] is oblivious, and so is their sequencing. *)
Ltac oblivious_step :=
  first
    [ apply oblivious_if_verbose
    | apply silent_print
    | apply silent_bind
    | apply oblivious_ret
    | apply oblivious_raise
    | apply oblivious_call
    | apply oblivious_new_array
    | apply oblivious_read_array
    | apply oblivious_write_array
    | apply oblivious_attr; intros [] ?; reflexivity
    | apply oblivious_update_self;
      intros [] [] ? ? ? ? ?; simpl in *; subst; repeat split
    | apply oblivious_bind; [|intros ?]
    | match goal with
      | |- oblivious (match ?x with _ => _ end) => destruct x
      end ].

Ltac oblivious_by_steps := repeat oblivious_step.

Lemma oblivious_basic_stats : oblivious (T:=T) (L:=L) basic_stats.
Proof. unfold basic_stats. oblivious_by_steps. Qed.

Lemma oblivious_get_dims : oblivious (F:=F) (T:=T) (L:=L) get_dims.
Proof. unfold get_dims. oblivious_by_steps. Qed.

Lemma oblivious_find_duplicates threshold neighbors :
  oblivious (T:=T) (L:=L) (find_duplicates env threshold neighbors).
Proof. unfold find_duplicates. oblivious_by_steps. Qed.

Lemma oblivious_find_outliers contamination :
  oblivious (T:=T) (L:=L) (find_outliers env contamination).
Proof. unfold find_outliers. oblivious_by_steps. Qed.

Lemma oblivious_remove_indices removing :
  oblivious (T:=T) (L:=L) (_remove_indices removing).
Proof. unfold _remove_indices. oblivious_by_steps. Qed.

(** C9. Run with [verbose] set and with [verbose] unset on otherwise
    identical state and arguments, each of [basic_stats], [get_dims],
    [find_duplicates], [find_outliers] and [_remove_indices] returns the same
    value, or raises the same exception, and leaves the same data: the flag
    controls the output only. *)
Theorem verbose_controls_output_only w threshold neighbors contamination removing :
  let loud := with_verbose true w in
  let quiet := with_verbose false w in
  let unaffected {A} (m : M A) :=
    result (m loud) = result (m quiet) /\
    same_but_verbose (final (m loud)) (final (m quiet)) in
  unaffected basic_stats /\
  unaffected get_dims /\
  unaffected (find_duplicates env threshold neighbors) /\
  unaffected (find_outliers env contamination) /\
  unaffected (_remove_indices removing).
Proof.
  pose proof (same_but_verbose_with_verbose true false w) as Hs.
  cbv zeta. split; [|split; [|split; [|split]]].
  - by apply oblivious_basic_stats.
  - by apply oblivious_get_dims.
  - by apply oblivious_find_duplicates.
  - by apply oblivious_find_outliers.
  - by apply oblivious_remove_indices.
Qed.

End Verbose.

(** ** Observers (C10) *)

Section Observers.
Context {F T L : Type} `{Scalar F}.
Variable env : libraries F.
Implicit Types w : world F T L.

(** C10. [find_duplicates] and [find_outliers] leave matrix, timestamps,
    labels, N and D unchanged, whether they return or raise. In the faiss
    branch the array normalised in place is a new array of the heap, at a
    location other than [self.embeddings], and the array at
    [self.embeddings] is the one it was. *)
Theorem find_duplicates_and_find_outliers_observe w threshold neighbors contamination :
  embeddings (self w) < length (heap w) ->
  same_data w (final (find_duplicates env threshold neighbors w)) /\
  same_data w (final (find_outliers env contamination w)) /\
  forall faiss, backend env = Faiss faiss ->
    let w' := final (find_duplicates env threshold neighbors w) in
    let emb := S (length (heap w)) in
    emb <> embeddings (self w') /\
    heap w' !! emb = Some (normalize_L2 faiss (astype_float32 faiss (matrix w))) /\
    heap w' !! embeddings (self w') = heap w !! embeddings (self w).
Proof.
  intros Href. split_and!.
  - rewrite find_duplicates_run.
    destruct (similarities env neighbors w) as [e|r]; simpl.
    + rewrite <- (printed_nil (grown _ w)). by apply same_data_printed_grown.
    + by apply same_data_printed_grown.
  - rewrite find_outliers_run.
    destruct (IsolationForest_fit_predict env contamination (matrix w)) as [e|preds]; simpl;
      [done|apply same_data_printed].
  - intros faiss Hfaiss. simpl. rewrite find_duplicates_run.
    assert (final
      match similarities env neighbors w with
      | inl e => Raise e (grown (scratch_arrays env w) w)
      | inr r =>
          let duplicates := scan_rows (fun dist => dist) threshold 0%Z (fst r) (snd r) in
          Ok duplicates
             (printed (when_verbose w [PrintFoundDuplicates (length duplicates)])
                      (grown (scratch_arrays env w) w))
      end = printed (match similarities env neighbors w with
                     | inl _ => []
                     | inr r => when_verbose w [PrintFoundDuplicates
                         (length (scan_rows (fun dist => dist) threshold 0%Z (fst r) (snd r)))]
                     end) (grown (scratch_arrays env w) w)) as ->.
    { destruct (similarities env neighbors w); simpl; [by rewrite printed_nil|done]. }
    unfold scratch_arrays. rewrite Hfaiss. simpl. split_and!.
    + lia.
    + rewrite lookup_app_r by lia.
      by replace (S (length (heap w)) - length (heap w)) with 1 by lia.
    + by rewrite lookup_app_l.
Qed.

End Observers.

(** ** The properties on concrete embedding sets *)

Section Examples.
Import Demo.

Lemma example_world_well_formed v : well_formed (example_world v).
Proof.
  unfold well_formed. simpl. split_and!; [lia|done|by intros ? [= <-]|by intros ? [= <-]].
Qed.

(** C1 on the example: row 1 is removed by index, as a duplicate of row 0,
    and the last row as an outlier. *)
Lemma row_removal_keeps_alignment_witness :
  filtered_by [true; false; true] (example_world true)
    (final (_remove_indices [1%Z] (example_world true))) /\
  aligned_removal (example_world true)
    (final (_remove_indices [1%Z] (example_world true))) /\
  aligned_removal (example_world true)
    (final (remove_duplicates with_sklearn default_threshold 2 (example_world true))) /\
  aligned_removal (example_world true)
    (final (remove_outliers with_sklearn default_threshold (example_world true))).
Proof.
  apply (row_removal_keeps_alignment with_sklearn (example_world true) [1%Z]).
  apply example_world_well_formed.
Defined.





(** C6 does not hold as stated: on a matrix of three rows, construction
    with one timestamp and two labels returns normally, and so does
    [set_labels] with a single label. *)
Lemma construction_accepts_mismatched_lengths :
  exists w',
    __init__ 0 true (Some [10]) (Some ["a"; "b"]) (example_world false) = Ok tt w' /\
    n_samples (self w') = 3 /\
    timestamps (self w') = Some [10] /\
    labels (self w') = Some ["a"; "b"] /\
    exists w'',
      set_labels (Some ["a"]) w' = Ok tt w'' /\
      n_samples (self w'') = 3 /\
      labels (self w'') = Some ["a"].
Proof.
  eexists. split; [vm_compute; reflexivity|]. split_and!; try done.
  eexists. split; [vm_compute; reflexivity|]. done.
Qed.

(** C7 on a path ending in ".txt". *)
Lemma load_embeddings_unknown_format_witness :
  load_embeddings with_sklearn "embeddings.txt" (example_world true) =
  Raise (ValueError "Unknown file format: must be .npy or .csv") (example_world true).
Proof.
  apply (load_embeddings_unknown_format with_sklearn (example_world true) "embeddings.txt").
  - reflexivity.
  - reflexivity.
Defined.

(** C7 does not hold as stated: the exception raised for an unknown
    extension is a [ValueError], not a [FormatError]. *)
Lemma load_embeddings_raises_ValueError :
  endswith "embeddings.txt" ".npy" = false /\
  endswith "embeddings.txt" ".csv" = false /\
  exists e,
    load_embeddings with_sklearn "embeddings.txt" (example_world true) =
    Raise e (example_world true) /\
    exn_class e = "ValueError" /\
    exn_class e <> "FormatError".
Proof.
  split; [done|]. split; [done|]. eexists. split; [vm_compute; reflexivity|]. done.
Qed.


(** The same rows in binary64: the quotients are 3/5 and 4/5, the norm of
    the first row comes out as 1 and the all-zero row stays as it is. *)
Example normalize_binary64 :
  exists w',
    normalize "l2" float_world = Ok tt w' /\
    rows (matrix w') =
      [[PrimFloat.div 3 5; PrimFloat.div 4 5]; [0; 0]]%float /\
    map norm_l2 (rows (matrix w')) = [1; 0]%float.
Proof. eexists. split; [vm_compute; reflexivity|]. by vm_compute. Qed.

(** C10 on the example, with the faiss backend. *)
Lemma find_duplicates_and_find_outliers_observe_witness :
  same_data (example_world true)
    (final (find_duplicates with_faiss default_threshold 2 (example_world true))) /\
  same_data (example_world true)
    (final (find_outliers with_faiss default_threshold (example_world true))) /\
  forall faiss, backend with_faiss = Faiss faiss ->
    let w' := final (find_duplicates with_faiss default_threshold 2 (example_world true)) in
    let emb := S (length (heap (example_world true))) in
    emb <> embeddings (self w') /\
    heap w' !! emb =
      Some (normalize_L2 faiss (astype_float32 faiss (matrix (example_world true)))) /\
    heap w' !! embeddings (self w') =
      heap (example_world true) !! embeddings (self (example_world true)).
Proof.
  apply (find_duplicates_and_find_outliers_observe with_faiss (example_world true)).
  simpl. lia.
Defined.

End Examples.

(** * Further properties of the methods above *)

From Stdlib Require Import Sorted.
From stdpp Require Import sorting.

(** ** The removal primitive, in full *)

Lemma wrap_index_designates n i r :
  r < n ->
  (wrap_index n i = inr r <-> i = Z.of_nat r \/ i = (Z.of_nat r - Z.of_nat n)%Z).
Proof.
  intros Hr. unfold wrap_index. split.
  - repeat case_decide; intros [= <-]; lia.
  - intros [->| ->].
    + rewrite decide_True by lia. f_equal. lia.
    + rewrite decide_False by lia. rewrite decide_True by lia. f_equal. lia.
Qed.

Lemma bool_list_eq (l1 l2 : list bool) :
  length l1 = length l2 ->
  (forall p, l1 !! p = Some true <-> l2 !! p = Some true) ->
  l1 = l2.
Proof.
  revert l2. induction l1 as [|b1 l1 IH]; intros [|b2 l2] Hlen Hp; simpl in *; try done.
  f_equal.
  - specialize (Hp 0). simpl in Hp. destruct b1, b2; try done.
    + discriminate (proj1 Hp eq_refl).
    + discriminate (proj2 Hp eq_refl).
  - apply IH; [lia|]. intros p. apply (Hp (S p)).
Qed.

(** The keep-mask depends on the indices as a set: their order and their
    repetitions do not matter. *)
Lemma keep_mask_same_elements n (l1 l2 : list Z) :
  (forall i, i ∈ l1 <-> i ∈ l2) ->
  (forall i, i ∈ l1 -> (- Z.of_nat n <= i < Z.of_nat n)%Z) ->
  keep_mask n l1 = keep_mask n l2.
Proof.
  intros Hsame Hin. apply bool_list_eq; [by rewrite !length_keep_mask|].
  intros p. rewrite !keep_mask_true; [|intros i Hi; by apply Hin, Hsame|done].
  split; intros [Hp Hno]; (split; [done|]); intros i Hi; by apply Hno, Hsame.
Qed.

Section RemovalInFull.
Context {F T L : Type} `{Scalar F}.
Implicit Types w : world F T L.

(** With every index in [-N, N) and at least one index, [_remove_indices]
    returns the statistics of the new matrix. Row [r] is removed exactly
    when [r] or [r - N] is among the indices; the kept rows stay in order,
    [n_samples] and [n_dim] are the shape of the new matrix, and the
    dictionary returned is the one [basic_stats] gives afterwards. *)
Theorem remove_indices_removes_designated_rows w removing :
  well_formed w ->
  removing <> [] ->
  (forall i, i ∈ removing ->
     (- Z.of_nat (n_samples (self w)) <= i < Z.of_nat (n_samples (self w)))%Z) ->
  exists s w',
    _remove_indices removing w = Ok (Some s) w' /\
    well_formed w' /\
    (forall r, r < n_samples (self w) ->
       (keep_mask (n_samples (self w)) removing !! r = Some true <->
        ((Z.of_nat r ∉ removing) /\
         ((Z.of_nat r - Z.of_nat (n_samples (self w)))%Z ∉ removing)))) /\
    rows (matrix w') = select (keep_mask (n_samples (self w)) removing) (rows (matrix w)) /\
    n_samples (self w') = length (rows (matrix w')) /\
    n_dim (self w') = ncols (matrix w) /\
    stats_shape s = (length (rows (matrix w')), ncols (matrix w)) /\
    result (basic_stats w') = inr s.
Proof.
  intros Hw Hne Hin.
  destruct (setitem_false_ok removing (np_ones_bool (n_samples (self w)))) as [mask Hmask].
  { by rewrite length_np_ones_bool. }
  assert (keep_mask (n_samples (self w)) removing = mask) as Hkeep.
  { unfold keep_mask. by rewrite Hmask. }
  apply setitem_false_length in Hmask as Hlen. rewrite length_np_ones_bool in Hlen.
  pose proof Hw as (Href & Hn & _).
  rewrite (remove_indices_ok _ mask) by done. do 2 eexists. split; [done|].
  rewrite Hkeep, basic_stats_run, !matrix_printed, matrix_removed. simpl.
  split_and!; try done.
  - apply well_formed_printed, well_formed_removed; [done|]. by rewrite <- Hn.
  - intros r Hr. rewrite <- Hkeep, keep_mask_true by done. split.
    + intros [_ Hno]. split; intros Hi; apply (Hno _ Hi); by apply wrap_index_designates; auto.
    + intros [Hr1 Hr2]. split; [done|]. intros i Hi [-> | ->]%wrap_index_designates; done.
Qed.

(** Listing the same indices in another order makes no difference to
    [_remove_indices]: this is why the iteration order of the Python set
    passed by [remove_duplicates] is immaterial. *)
Theorem remove_indices_order_irrelevant w removing removing' :
  well_formed w ->
  removing ≡ₚ removing' ->
  (forall i, i ∈ removing ->
     (- Z.of_nat (n_samples (self w)) <= i < Z.of_nat (n_samples (self w)))%Z) ->
  _remove_indices removing w = _remove_indices removing' w.
Proof.
  intros Hw Hperm Hin.
  destruct removing as [|i removing].
  { apply Permutation_nil_l in Hperm. by subst. }
  assert (removing' <> []) as Hne'.
  { intros ->. by apply Permutation_nil_r in Hperm. }
  assert (forall j, j ∈ removing' ->
    (- Z.of_nat (n_samples (self w)) <= j < Z.of_nat (n_samples (self w)))%Z) as Hin'.
  { intros j Hj. apply Hin. by rewrite Hperm. }
  destruct (setitem_false_ok (i :: removing) (np_ones_bool (n_samples (self w))))
    as [mask Hmask]; [by rewrite length_np_ones_bool|].
  destruct (setitem_false_ok removing' (np_ones_bool (n_samples (self w))))
    as [mask' Hmask']; [by rewrite length_np_ones_bool|].
  assert (mask = mask') as <-.
  { pose proof (keep_mask_same_elements (n_samples (self w)) (i :: removing) removing') as Heq.
    unfold keep_mask in Heq. rewrite Hmask, Hmask' in Heq. apply Heq; [|done].
    intros j. by rewrite Hperm. }
  rewrite (remove_indices_ok _ mask), (remove_indices_ok removing' mask) by done.
  by rewrite (Permutation_length Hperm).
Qed.

End RemovalInFull.

Section Misaligned.
Context {F T L : Type} `{Scalar F}.
Implicit Types w : world F T L.

(** Nothing checks the length of [labels] (see C6). On an object whose
    labels do not have one entry per row, a removal with valid indices is
    not applied as a whole: the matrix and the timestamps are filtered
    first, then [labels[mask]] raises [IndexError], and the object is left
    with the new matrix, the old labels and the old [n_samples]. *)
Theorem remove_indices_partial_on_misaligned_labels w removing lb :
  removing <> [] ->
  (forall i, i ∈ removing ->
     (- Z.of_nat (n_samples (self w)) <= i < Z.of_nat (n_samples (self w)))%Z) ->
  n_samples (self w) = length (rows (matrix w)) ->
  (forall ts, timestamps (self w) = Some ts -> length ts = length (rows (matrix w))) ->
  labels (self w) = Some lb ->
  length lb <> length (rows (matrix w)) ->
  exists w',
    _remove_indices removing w =
      Raise (mask_mismatch (length lb) (n_samples (self w))) w' /\
    rows (matrix w') = select (keep_mask (n_samples (self w)) removing) (rows (matrix w)) /\
    timestamps (self w') =
      select (keep_mask (n_samples (self w)) removing) <$> timestamps (self w) /\
    labels (self w') = Some lb /\
    n_samples (self w') = n_samples (self w) /\
    stdout w' = stdout w.
Proof.
  intros Hne Hin Hn Hts Hlb Hbad.
  destruct (setitem_false_ok removing (np_ones_bool (n_samples (self w)))) as [mask Hmask].
  { by rewrite length_np_ones_bool. }
  unfold keep_mask. rewrite Hmask.
  apply setitem_false_length in Hmask as Hlen. rewrite length_np_ones_bool in Hlen.
  unfold _remove_indices. rewrite decide_False by (by destruct removing).
  unfold bind at 1 2. simpl. rewrite Hmask. simpl.
  unfold bind at 1 2 3. simpl. unfold getitem_mask2, getitem_mask.
  fold (matrix w). rewrite decide_True by congruence. simpl.
  destruct w as [[e n d v ts lb0] h out]. simpl in *. subst lb0.
  unfold matrix in *. simpl in *.
  destruct ts as [ts|]; simpl; try specialize (Hts _ eq_refl);
    unfold bind; simpl; rewrite ?decide_True by congruence; simpl;
    rewrite decide_False by congruence; simpl;
    eexists; (split; [by rewrite Hlen|]); simpl;
    rewrite list_lookup_total_middle by done; done.
Qed.

End Misaligned.

(** ** Outliers *)

Lemma elem_of_where_eq v preds : forall from i,
  i ∈ where_eq v from preds <->
  exists r, i = Z.of_nat (from + r) /\ preds !! r = Some v.
Proof.
  induction preds as [|p preds IH]; intros from i; simpl.
  - split; [by intros ?%elem_of_nil | by intros (r & _ & [=])].
  - rewrite elem_of_app, IH. split.
    + intros [Hhd|(r & -> & Hr)].
      * case_decide; [|by apply elem_of_nil in Hhd].
        apply list_elem_of_singleton in Hhd. subst. exists 0. by rewrite Nat.add_0_r.
      * exists (S r). split; [f_equal; lia|done].
    + intros ([|r] & -> & Hr); simpl in Hr.
      * left. injection Hr as ->. rewrite decide_True by done.
        apply list_elem_of_singleton. f_equal. lia.
      * right. exists r. split; [f_equal; lia|done].
Qed.

Lemma where_eq_sorted v preds : forall from,
  StronglySorted Z.lt (where_eq v from preds).
Proof.
  induction preds as [|p preds IH]; intros from; simpl; [constructor|].
  case_decide; simpl; [|apply IH].
  constructor; [apply IH|]. apply Forall_forall. intros i Hi.
  apply elem_of_where_eq in Hi as (r & -> & _). lia.
Qed.

Lemma StronglySorted_lt_NoDup (l : list Z) : StronglySorted Z.lt l -> NoDup l.
Proof.
  induction 1 as [|x l _ IH Hall]; constructor; [|done].
  intros Hx. apply (Z.lt_irrefl x), (proj1 (Forall_forall _ _) Hall x Hx).
Qed.

Section Outliers.
Context {F T L : Type} `{Scalar F}.
Variable env : libraries F.
Implicit Types w : world F T L.

(** [find_outliers] returns the indices of the rows the isolation forest
    labels [-1], each once and in ascending order. *)
Theorem find_outliers_lists_flagged_rows w contamination outliers w' :
  find_outliers env contamination w = Ok outliers w' ->
  exists preds,
    IsolationForest_fit_predict env contamination (matrix w) = inr preds /\
    (forall i, i ∈ outliers <->
               exists r, i = Z.of_nat r /\ preds !! r = Some (-1)%Z) /\
    StronglySorted Z.lt outliers.
Proof.
  rewrite find_outliers_run.
  destruct (IsolationForest_fit_predict env contamination (matrix w)) as [e|preds]; [done|].
  simpl. intros [= <- _]. exists preds. split; [done|]. split.
  - intros i. by rewrite elem_of_where_eq.
  - apply where_eq_sorted.
Qed.

(** When the isolation forest labels each of the N rows, [remove_outliers]
    returns normally and keeps exactly the rows not labelled [-1], with
    their timestamps and labels: the row count drops by the number of
    outliers found. *)
Theorem remove_outliers_removes_flagged_rows w contamination preds :
  well_formed w ->
  IsolationForest_fit_predict env contamination (matrix w) = inr preds ->
  length preds = n_samples (self w) ->
  exists w',
    remove_outliers env contamination w = Ok tt w' /\
    well_formed w' /\
    filtered_by (map (fun p => negb (bool_decide (p = (-1)%Z))) preds) w w' /\
    length (rows (matrix w')) + length (where_eq (-1)%Z 0 preds) = n_samples (self w).
Proof.
  intros Hw Hpreds Hlen. pose proof Hw as (Href & Hn & _).
  set (outliers := where_eq (-1)%Z 0 preds).
  assert (forall i, i ∈ outliers -> (0 <= i < Z.of_nat (n_samples (self w)))%Z) as Hrange.
  { intros i (r & -> & Hr)%elem_of_where_eq. apply lookup_lt_Some in Hr. lia. }
  assert (keep_mask (n_samples (self w)) outliers =
          map (fun p => negb (bool_decide (p = (-1)%Z))) preds) as Hmask.
  { apply bool_list_eq; [by rewrite length_keep_mask, length_map|].
    intros p. rewrite keep_mask_true by (intros i Hi; specialize (Hrange i Hi); lia).
    rewrite lookup_map. split.
    - intros [Hp Hno]. rewrite <- Hlen in Hp.
      destruct (lookup_lt_is_Some_2 preds p Hp) as [x Hx]. rewrite Hx. simpl.
      f_equal. apply negb_true_iff, bool_decide_eq_false. intros ->.
      apply (Hno (Z.of_nat p)); [apply elem_of_where_eq; by exists p|].
      rewrite wrap_index_nonneg by lia. f_equal. lia.
    - destruct (preds !! p) as [x|] eqn:Hx; [|done]. simpl. intros [= Hneg].
      apply negb_true_iff, bool_decide_eq_false in Hneg.
      apply lookup_lt_Some in Hx as Hp. split; [lia|].
      intros i (r & -> & Hr)%elem_of_where_eq Hwrap.
      rewrite wrap_index_nonneg in Hwrap by (apply lookup_lt_Some in Hr; lia).
      injection Hwrap as <-. rewrite Nat2Z.id in Hx. simpl in Hr. congruence. }
  rewrite remove_outliers_run, Hpreds. simpl. fold outliers.
  set (w2 := printed _ w).
  assert (well_formed w2) as Hw2 by (by apply well_formed_printed).
  destruct (remove_indices_in_range outliers w2 Hw2) as (ret & w' & Hrun).
  { intros i Hi. specialize (Hrange i Hi). simpl. lia. }
  destruct (remove_indices_final outliers w2 Hw2) as [Hf Hw'].
  rewrite Hrun in Hf, Hw'. simpl in Hf, Hw'. rewrite Hmask in Hf.
  rewrite Hrun. exists w'. split_and!; try done.
  destruct Hf as (Hl & -> & _). change (matrix w2) with (matrix w) in *.
  rewrite (length_select_positions _ 0) by done. rewrite <- Hmask.
  unfold keep_mask.
  destruct (setitem_false_ok outliers (np_ones_bool (n_samples (self w)))) as [mask Hmk].
  { intros i Hi. specialize (Hrange i Hi). rewrite length_np_ones_bool. lia. }
  rewrite Hmk.
  assert (forall i, i ∈ outliers ->
            (0 <= i < Z.of_nat (length (np_ones_bool (n_samples (self w)))))%Z /\
            np_ones_bool (n_samples (self w)) !! Z.to_nat i = Some true) as Hall.
  { intros i Hi. specialize (Hrange i Hi). rewrite length_np_ones_bool.
    split; [done|]. apply lookup_np_ones_bool. lia. }
  pose proof (length_positions_setitem_false _ _ _ 0
                (StronglySorted_lt_NoDup _ (where_eq_sorted _ _ _)) Hall Hmk) as Hcount.
  by rewrite length_positions_ones in Hcount.
Qed.

End Outliers.

(** ** The order of the duplicates and the neighbour dropped first *)

Section DuplicateOrder.
Context {F T L : Type} `{Scalar F}.
Variable env : libraries F.
Implicit Types w : world F T L.




(** The first neighbour of every row is dropped unseen
    ([dist_row[1:]], [index_row[1:]]): a row [j] that the search reports for
    row [r] at the first position only is never paired with [r], whatever
    its similarity, also when it is not [r] itself. *)
Theorem find_duplicates_skips_first_neighbour
    w threshold neighbors duplicates w' table indices r index_row j s :
  find_duplicates env threshold neighbors w = Ok duplicates w' ->
  similarities env neighbors w = inr (table, indices) ->
  indices !! r = Some index_row ->
  (forall p, index_row !! S p <> Some j) ->
  (Z.of_nat r, j, s) ∉ duplicates.
Proof.
  intros Hrun Htab Hrow Honly Hin.
  apply (elem_of_find_duplicates _ _ _ _ _ _ _ Hrun) in Hin
    as (table' & indices' & r' & p & sim_row & index_row' & s' & j'
        & Htab' & _ & Hrow' & _ & Hj & [= Hr -> ->] & _).
  apply Nat2Z.inj in Hr. subst r'.
  rewrite Htab in Htab'. injection Htab' as <- <-.
  rewrite Hrow in Hrow'. injection Hrow' as <-.
  by apply (Honly p).
Qed.

End DuplicateOrder.

(** ** Arrays that exist before a call are left alone *)

Section Frame.
Context {F T L : Type} `{Scalar F}.
Variable env : libraries F.
Implicit Types w : world F T L.

(** A computation that writes into no array of the heap it starts from:
    it may only add arrays. *)
Definition adds_arrays_only {A} (m : M (F:=F) (T:=T) (L:=L) A) : Prop :=
  forall w, heap w `prefix_of` heap (final (m w)).

Lemma adds_ret {A} (a : A) : adds_arrays_only (ret a).
Proof. by intros w. Qed.

Lemma adds_raise {A} e : adds_arrays_only (raise (A:=A) e).
Proof. by intros w. Qed.

Lemma adds_call {A} (r : exn + A) : adds_arrays_only (call r).
Proof. destruct r; [apply adds_raise | apply adds_ret]. Qed.

Lemma adds_attr {A} (f : Embedx T L -> A) : adds_arrays_only (attr f).
Proof. by intros w. Qed.

Lemma adds_update_self f : adds_arrays_only (update_self f).
Proof. by intros w. Qed.

Lemma adds_read_array l : adds_arrays_only (read_array l).
Proof. by intros w. Qed.

Lemma adds_print d : adds_arrays_only (print d).
Proof. by intros w. Qed.

Lemma adds_new_array a : adds_arrays_only (new_array a).
Proof. intros w. simpl. by apply prefix_app_r. Qed.

Lemma adds_bind {A B} (m : M (F:=F) (T:=T) (L:=L) A) (k : A -> M B) :
  adds_arrays_only m -> (forall a, adds_arrays_only (k a)) -> adds_arrays_only (bind m k).
Proof.
  intros Hm Hk w. specialize (Hm w). unfold bind.
  destruct (m w) as [a w1|e w1]; simpl in *; [|done].
  by etrans; [|apply Hk].
Qed.

Lemma adds_find_duplicates threshold neighbors :
  adds_arrays_only (find_duplicates env threshold neighbors).
Proof.
  intros w. rewrite find_duplicates_run.
  destruct (similarities env neighbors w); simpl; by apply prefix_app_r.
Qed.

Ltac adds_step :=
  first
    [ apply adds_find_duplicates
    | apply adds_ret
    | apply adds_raise
    | apply adds_call
    | apply adds_new_array
    | apply adds_read_array
    | apply adds_print
    | apply adds_attr
    | apply adds_update_self
    | apply adds_bind; [|intros ?]
    | match goal with
      | |- adds_arrays_only (match ?x with _ => _ end) => destruct x
      end ].

(** No method of the first part writes into an array that existed before
    the call. The array handed to the constructor, and any array an earlier
    state of the object referred to, still holds what it held: row removal
    and normalisation build new arrays, and [find_duplicates] normalises its
    own copy. *)
Theorem methods_leave_existing_arrays_alone
    w l a threshold neighbors contamination removing method path :
  heap w !! l = Some a ->
  heap (final (basic_stats w)) !! l = Some a /\
  heap (final (get_dims w)) !! l = Some a /\
  heap (final (find_duplicates env threshold neighbors w)) !! l = Some a /\
  heap (final (find_outliers env contamination w)) !! l = Some a /\
  heap (final (_remove_indices removing w)) !! l = Some a /\
  heap (final (remove_duplicates env threshold neighbors w)) !! l = Some a /\
  heap (final (remove_outliers env contamination w)) !! l = Some a /\
  heap (final (normalize method w)) !! l = Some a /\
  heap (final (load_embeddings env path w)) !! l = Some a.
Proof.
  intros Hl.
  assert (forall A (m : M A), adds_arrays_only m -> heap (final (m w)) !! l = Some a) as Hframe.
  { intros A m Hm. by eapply prefix_lookup_Some. }
  split_and!; apply Hframe.
  - unfold basic_stats, if_verbose. repeat adds_step.
  - unfold get_dims, assign_n_samples, assign_n_dim. repeat adds_step.
  - apply adds_find_duplicates.
  - unfold find_outliers, if_verbose. repeat adds_step.
  - unfold _remove_indices, basic_stats, if_verbose, assign_embeddings, assign_timestamps,
      assign_labels, assign_n_samples, assign_n_dim. repeat adds_step.
  - unfold remove_duplicates, _remove_indices, basic_stats, if_verbose, assign_embeddings,
      assign_timestamps, assign_labels, assign_n_samples, assign_n_dim. repeat adds_step.
  - unfold remove_outliers, find_outliers, _remove_indices, basic_stats, if_verbose,
      assign_embeddings, assign_timestamps, assign_labels, assign_n_samples, assign_n_dim.
    repeat adds_step.
  - unfold normalize, if_verbose, assign_embeddings. repeat adds_step.
  - unfold load_embeddings. repeat adds_step.
Qed.

End Frame.

(** ** Normalisation keeps the shape and settles after one application *)

Section NormalizeShape.
Context {F T L : Type} `{Scalar F}.
Implicit Types w : world F T L.

Lemma well_formed_normalized (norm : list F -> F) w :
  well_formed w -> well_formed (normalized norm w).
Proof.
  intros (Href & Hn & Hts & Hlb). unfold well_formed.
  rewrite normalized_rows, length_map. simpl. split_and!; try done.
  rewrite length_app. simpl. lia.
Qed.

(** [normalize] with a known method keeps the invariant of the data model:
    the new matrix has the shape of the old one, row by row, and the
    timestamps, the labels, [n_samples] and [n_dim] are untouched. *)
Theorem normalize_keeps_shape w method :
  well_formed w ->
  method = "l2" \/ method = "l1" ->
  exists w',
    normalize method w = Ok tt w' /\
    well_formed w' /\
    shape (matrix w') = shape (matrix w) /\
    map length (rows (matrix w')) = map length (rows (matrix w)) /\
    timestamps (self w') = timestamps (self w) /\
    labels (self w') = labels (self w) /\
    n_samples (self w') = n_samples (self w) /\
    n_dim (self w') = n_dim (self w).
Proof.
  intros Hw Hmethod.
  assert (forall norm : list F -> F,
            shape (matrix (normalized norm w)) = shape (matrix w) /\
            map length (rows (matrix (normalized norm w))) = map length (rows (matrix w)))
    as Hshape.
  { intros norm. unfold shape. rewrite normalized_rows, length_map, map_map. split.
    - f_equal. unfold matrix at 1, normalized. simpl.
      by rewrite list_lookup_total_middle.
    - apply map_ext. intros row. apply length_map. }
  destruct Hmethod as [-> | ->].
  - rewrite normalize_l2_run. eexists. split; [done|].
    destruct (Hshape norm_l2) as [Hs Hl]. rewrite matrix_printed.
    split_and!; try done. by apply well_formed_printed, well_formed_normalized.
  - rewrite normalize_l1_run. eexists. split; [done|].
    destruct (Hshape norm_l1) as [Hs Hl]. rewrite matrix_printed.
    split_and!; try done. by apply well_formed_printed, well_formed_normalized.
Qed.

End NormalizeShape.

Section NormalizeTwice.
Context {T L : Type}.
Implicit Types w : world R T L.
Local Open Scope R_scope.





End NormalizeTwice.

(** * The remaining methods: centring, column pruning, PCA, saving *)

(** ** Column operations *)

(** What these methods use of the element type besides [Scalar]: the
    comparison [>] and the variance of one column ([np.var(.., axis=0)]). *)
Class ColumnStats (F : Type) := {
  f_gt : F -> F -> bool;
  f_var : list F -> F
}.

#[global] Instance float64_column_stats : ColumnStats float := {
  f_gt a b := PrimFloat.ltb b a;
  f_var xs :=
    let m := f64_mean xs in
    f64_mean (map (fun x => PrimFloat.mul (PrimFloat.sub x m) (PrimFloat.sub x m)) xs)
}.

Definition R_var (xs : list R) : R :=
  R_mean (map (fun x => ((x - R_mean xs) * (x - R_mean xs))%R) xs).

#[global] Instance real_column_stats : ColumnStats R := {
  f_gt a b := if Rlt_dec b a then true else false;
  f_var := R_var
}.

(** Column [j] of a list of rows. *)
Definition column {F} (j : nat) (rs : list (list F)) : list F :=
  omap (fun row => row !! j) rs.

(** [np.mean(a, axis=0, keepdims=True)] and [np.var(a, axis=0)]: one entry
    per column. *)
Definition np_mean_axis0 {F} `{Scalar F} (a : ndarray F) : list F :=
  map (fun j => f_mean (column j (rows a))) (seq 0 (ncols a)).

Definition np_var_axis0 {F} `{ColumnStats F} (a : ndarray F) : list F :=
  map (fun j => f_var (column j (rows a))) (seq 0 (ncols a)).

(** [a - mean] with [mean] of shape (1, D): the mean of column [j] is
    subtracted from entry [j] of every row. *)
Definition subtract_from_rows {F} `{Scalar F} (rs : list (list F)) (mean : list F)
  : list (list F) :=
  map (fun row => zip_with f_sub row mean) rs.

(** [a[:, to_keep]]: the columns where [to_keep] is true. *)
Definition getitem_columns {F} (a : ndarray F) (to_keep : list bool) : exn + ndarray F :=
  if decide (length to_keep = ncols a)
  then inr (NdArray (map (select to_keep) (rows a)) (length (positions 0 to_keep)))
  else inl (IndexError ("boolean index did not match indexed array along axis 1; " +:+
                        "size of axis is " +:+ pretty (ncols a) +:+
                        " but size of corresponding boolean axis is " +:+
                        pretty (length to_keep))).

(** An array as numpy has it: every row has [ncols] entries. *)
Definition rectangular {F} (a : ndarray F) : Prop :=
  Forall (fun row => length row = ncols a) (rows a).

(** ** Sessions *)

(** What these methods print. *)
Inductive line :=
| PrintCentered                              (* "Centered embeddings at mean" *)
| PrintSettingComponents (d : nat)           (* "Setting n_components to default {n_dim}" *)
| PrintPostPCADim (d : nat)                  (* "Post-PCA dim = {n_dim}" *)
| PrintRemovedLowVariance (removed d : nat)  (* "Removed {k} low-variance components. New dim: {n_dim}" *)
| PrintSaved (path format : string).         (* "Saved embeddings to {path} as .{format}" *)

(** PCA, matplotlib and the writers of numpy. [PCA_fit n wh a] stands for
    [pca = PCA(n_components=n, whiten=wh, random_state=3); pca.fit(a)] and
    gives [pca.explained_variance_ratio_]; [PCA_fit_transform] gives the
    projection with it. [variance_figure] stands for lines 201-207, the
    figure of the cumulated ratios. The writers act on a file system [FS]. *)
Record more_libraries (F Fig FS : Type) := {
  PCA_fit : Z -> bool -> ndarray F -> exn + list F;
  PCA_fit_transform : Z -> bool -> ndarray F -> exn + (ndarray F * list F);
  variance_figure : list F -> Fig;
  savefig : string -> Fig -> FS -> exn + FS;
  np_save : string -> ndarray F -> FS -> exn + FS;
  np_savetxt : string -> ndarray F -> FS -> exn + FS
}.
Arguments PCA_fit {F Fig FS} _ _ _ _.
Arguments PCA_fit_transform {F Fig FS} _ _ _ _.
Arguments variance_figure {F Fig FS} _ _.
Arguments savefig {F Fig FS} _ _ _ _.
Arguments np_save {F Fig FS} _ _ _ _.
Arguments np_savetxt {F Fig FS} _ _ _ _.

(** The state these methods run in: the world of the first part, the lines
    they print, and the file system. The lines of the two parts are kept
    apart; no method of this part calls a printing method of the first. *)
Record session (F T L FS : Type) := mkSession {
  core : world F T L;
  console : list line;
  disk : FS
}.
Arguments mkSession {F T L FS} _ _ _.
Arguments core {F T L FS} _.
Arguments console {F T L FS} _.
Arguments disk {F T L FS} _.

Section MoreMethods.
Context {F T L Fig FS : Type} `{Scalar F} `{ColumnStats F}.
Variable lib : more_libraries F Fig FS.

Definition Run (A : Type) : Type := session F T L FS -> outcome (session F T L FS) A.

Definition done_with {A} (a : A) : Run A := fun s => Ok a s.

Definition and_then {A B} (m : Run A) (k : A -> Run B) : Run B :=
  fun s => match m s with
           | Ok a s' => k a s'
           | Raise e s' => Raise e s'
           end.

Definition fail_with {A} (e : exn) : Run A := fun s => Raise e s.

Definition calling {A} (r : exn + A) : Run A :=
  match r with inl e => fail_with e | inr a => done_with a end.

(** A step of the first part, run on the world of the session. *)
Definition on_core {A} (m : M (F:=F) (T:=T) (L:=L) A) : Run A :=
  fun s => match m (core s) with
           | Ok a w => Ok a (mkSession w (console s) (disk s))
           | Raise e w => Raise e (mkSession w (console s) (disk s))
           end.

Definition say (l : line) : Run unit :=
  fun s => Ok tt (mkSession (core s) (console s ++ [l]) (disk s)).

(** A library call that writes to the file system. *)
Definition on_disk (write : FS -> exn + FS) : Run unit :=
  fun s => match write (disk s) with
           | inl e => Raise e s
           | inr fs => Ok tt (mkSession (core s) (console s) fs)
           end.

Notation "x <- c ;; k" := (and_then c (fun x => k))
  (at level 100, c at next level, right associativity) : py_scope.
Notation "c ;; k" := (and_then c (fun _ => k))
  (at level 100, right associativity) : py_scope.
Local Open Scope py_scope.

Definition if_verbose_say (l : line) : Run unit :=
  v <- on_core (attr verbose) ;; if v then say l else done_with tt.

(** [Embedx.center] (lines 169-173). [-=] writes into the array
    [self.embeddings] refers to. *)
Definition center : Run unit :=
  e <- on_core (attr embeddings) ;;
  a <- on_core (read_array e) ;;
  let mean := np_mean_axis0 a in
  e' <- on_core (attr embeddings) ;;
  a' <- on_core (read_array e') ;;
  on_core (write_array e' (NdArray (subtract_from_rows (rows a') mean) (ncols a'))) ;;
  if_verbose_say PrintCentered.

(** [Embedx.whiten] (lines 188-210). [None] for [n_components] and for
    [save_path] is [None]; an empty [save_path] is false as well. The two
    messages are printed whatever [verbose] is. *)
Definition whiten (n_components : option Z) (whiten_arg transform plot_variance : bool)
    (save_path : option string) : Run (option Fig) :=
  d <- on_core (attr n_dim) ;;
  n <- (match n_components with
        | Some n =>
            if (Z.of_nat d <? n)%Z
            then (d' <- on_core (attr n_dim) ;;
                  say (PrintSettingComponents d') ;; done_with (Z.of_nat d'))
            else done_with n
        | None =>
            d' <- on_core (attr n_dim) ;;
            say (PrintSettingComponents d') ;; done_with (Z.of_nat d')
        end) ;;
  explained <-
    (if transform then
       e <- on_core (attr embeddings) ;;
       a <- on_core (read_array e) ;;
       r <- calling (PCA_fit_transform lib n whiten_arg a) ;;
       e' <- on_core (new_array (fst r)) ;;
       on_core (assign_embeddings e') ;;
       a' <- on_core (read_array e') ;;
       on_core (assign_n_dim (snd (shape a'))) ;;
       d' <- on_core (attr n_dim) ;;
       say (PrintPostPCADim d') ;;
       done_with (snd r)
     else
       e <- on_core (attr embeddings) ;;
       a <- on_core (read_array e) ;;
       calling (PCA_fit lib n whiten_arg a)) ;;
  if plot_variance then
    let fig := variance_figure lib explained in
    match save_path with
    | Some path =>
        if String.eqb path "" then done_with tt else on_disk (savefig lib path fig)
    | None => done_with tt
    end ;;
    done_with (Some fig)
  else done_with None.

(** [Embedx.variance_plot] (lines 212-213) *)
Definition variance_plot (n_components : option Z) : Run (option Fig) :=
  whiten n_components false false true None.

(** [Embedx.remove_low_variance] (lines 215-221) *)
Definition remove_low_variance (threshold : F) : Run unit :=
  e <- on_core (attr embeddings) ;;
  a <- on_core (read_array e) ;;
  let variance := np_var_axis0 a in
  let to_keep := map (fun v => f_gt v threshold) variance in
  e1 <- on_core (attr embeddings) ;;
  a1 <- on_core (read_array e1) ;;
  a' <- calling (getitem_columns a1 to_keep) ;;
  e' <- on_core (new_array a') ;;
  on_core (assign_embeddings e') ;;
  a2 <- on_core (read_array e') ;;
  on_core (assign_n_dim (snd (shape a2))) ;;
  v <- on_core (attr verbose) ;;
  if v then
    d <- on_core (attr n_dim) ;;
    say (PrintRemovedLowVariance
           (length (List.filter (fun v => f_ge threshold v) variance)) d)
  else done_with tt.

(** [Embedx.save_embeddings] (lines 223-232) *)
Definition save_embeddings (path format : string) : Run unit :=
  (if String.eqb format "npy" then
     e <- on_core (attr embeddings) ;;
     a <- on_core (read_array e) ;;
     on_disk (np_save lib path a)
   else if String.eqb format "csv" then
     e <- on_core (attr embeddings) ;;
     a <- on_core (read_array e) ;;
     on_disk (np_savetxt lib path a)
   else fail_with (ValueError ("Cannot save to unknown format: " +:+ format))) ;;
  if_verbose_say (PrintSaved path format).

End MoreMethods.

(** ** Centring *)

(** The array [center] leaves at [self.embeddings]. *)
Definition centered {F} `{Scalar F} (a : ndarray F) : ndarray F :=
  NdArray (subtract_from_rows (rows a) (np_mean_axis0 a)) (ncols a).

Section CenterRuns.
Context {F T L FS : Type} `{Scalar F}.
Implicit Types s : session F T L FS.

Lemma center_run s :
  center s =
  Ok tt (mkSession
           (mkWorld (self (core s))
                    (<[embeddings (self (core s)) := centered (matrix (core s))]>
                       (heap (core s)))
                    (stdout (core s)))
           (console s ++ if verbose (self (core s)) then [PrintCentered] else [])
           (disk s)).
Proof.
  unfold center, and_then, on_core, if_verbose_say, and_then, on_core. simpl.
  destruct (verbose (self (core s))); simpl; [done|].
  unfold done_with. by rewrite app_nil_r.
Qed.

(** [center] works in place: [self.embeddings] keeps referring to the same
    array, the one given to the constructor unless a method has rebound it
    since, and that array now holds the centred data; every other array
    and every other attribute is as before. *)
Theorem center_overwrites_the_array s :
  embeddings (self (core s)) < length (heap (core s)) ->
  exists s',
    center s = Ok tt s' /\
    self (core s') = self (core s) /\
    heap (core s') !! embeddings (self (core s)) = Some (centered (matrix (core s))) /\
    (forall l, l <> embeddings (self (core s)) ->
               heap (core s') !! l = heap (core s) !! l) /\
    shape (matrix (core s')) = shape (matrix (core s)) /\
    disk s' = disk s.
Proof.
  intros Href. rewrite center_run. eexists. split; [done|]. simpl.
  split_and!; try done.
  - by apply list_lookup_insert_eq.
  - intros l Hl. by apply list_lookup_insert_ne.
  - unfold matrix. simpl. rewrite list_lookup_total_insert_eq by done.
    unfold shape, centered, subtract_from_rows. simpl. by rewrite length_map.
Qed.


End CenterRuns.





Section CenterReals.
Context {T L FS : Type}.
Implicit Types s : session R T L FS.
Local Open Scope R_scope.




End CenterReals.

(** ** Pruning columns of low variance *)

(** The column mask of [remove_low_variance]: [variance > threshold]. *)
Definition to_keep_mask {F} `{ColumnStats F} (threshold : F) (a : ndarray F) : list bool :=
  map (fun v => f_gt v threshold) (np_var_axis0 a).

(** The array [remove_low_variance] builds. *)
Definition pruned {F} `{ColumnStats F} (threshold : F) (a : ndarray F) : ndarray F :=
  NdArray (map (select (to_keep_mask threshold a)) (rows a))
          (length (positions 0 (to_keep_mask threshold a))).

Lemma length_to_keep_mask {F} `{ColumnStats F} (threshold : F) (a : ndarray F) :
  length (to_keep_mask threshold a) = ncols a.
Proof. unfold to_keep_mask, np_var_axis0. by rewrite !length_map, length_seq. Qed.

Lemma lookup_to_keep_mask {F} `{ColumnStats F} (threshold : F) (a : ndarray F) j :
  j < ncols a ->
  to_keep_mask threshold a !! j = Some (f_gt (f_var (column j (rows a))) threshold).
Proof.
  intros Hj. unfold to_keep_mask, np_var_axis0.
  rewrite !lookup_map, lookup_seq_lt by done. done.
Qed.

Section LowVariance.
Context {F T L FS : Type} `{Scalar F} `{ColumnStats F}.
Implicit Types s : session F T L FS.

Lemma remove_low_variance_run threshold s :
  let w := core s in
  let a' := pruned threshold (matrix w) in
  remove_low_variance threshold s =
  Ok tt (mkSession
           (mkWorld (mkEmbedx (length (heap w)) (n_samples (self w)) (ncols a')
                              (verbose (self w)) (timestamps (self w)) (labels (self w)))
                    (heap w ++ [a']) (stdout w))
           (console s ++
            if verbose (self w)
            then [PrintRemovedLowVariance
                    (length (List.filter (fun v => f_ge threshold v)
                                         (np_var_axis0 (matrix w))))
                    (ncols a')]
            else [])
           (disk s)).
Proof.
  simpl. unfold remove_low_variance, and_then, on_core. simpl.
  unfold getitem_columns. fold (matrix (core s)).
  fold (to_keep_mask threshold (matrix (core s))).
  rewrite decide_True by apply length_to_keep_mask. simpl.
  rewrite !list_lookup_total_middle by done. simpl.
  destruct (verbose (self (core s))); simpl; [done|].
  unfold done_with. by rewrite app_nil_r.
Qed.


(** [remove_low_variance] keeps, in every row, the entries of the columns
    whose variance exceeds the threshold, in their order: the row count,
    the timestamps and the labels are untouched, [n_dim] becomes the number
    of columns kept, and the matrix is rectangular again. Nothing stops
    that number from being zero. *)
Theorem remove_low_variance_keeps_columns threshold s :
  well_formed (core s) ->
  rectangular (matrix (core s)) ->
  exists s',
    remove_low_variance threshold s = Ok tt s' /\
    well_formed (core s') /\
    rectangular (matrix (core s')) /\
    rows (matrix (core s')) =
      map (select (to_keep_mask threshold (matrix (core s)))) (rows (matrix (core s))) /\
    (forall j, j < ncols (matrix (core s)) ->
       to_keep_mask threshold (matrix (core s)) !! j =
       Some (f_gt (f_var (column j (rows (matrix (core s))))) threshold)) /\
    n_dim (self (core s')) = ncols (matrix (core s')) /\
    ncols (matrix (core s')) = length (positions 0 (to_keep_mask threshold (matrix (core s)))) /\
    n_samples (self (core s')) = n_samples (self (core s)) /\
    timestamps (self (core s')) = timestamps (self (core s)) /\
    labels (self (core s')) = labels (self (core s)).
Proof.
  intros (Href & Hn & Hts & Hlb) Hrect.
  pose proof (remove_low_variance_run threshold s) as Hrun. simpl in Hrun.
  rewrite Hrun. eexists. split; [done|]. simpl.
  assert (forall h (a : ndarray F) out ns nd v (ts : option (list T)) (lb : option (list L)),
            matrix (mkWorld (mkEmbedx (length h) ns nd v ts lb) (h ++ [a]) out) = a) as Hm.
  { intros. unfold matrix. simpl. by apply list_lookup_total_middle. }
  rewrite !Hm. unfold well_formed. simpl. rewrite !Hm. simpl. rewrite !length_map.
  split_and!; try done.
  - rewrite length_app. simpl. lia.
  - unfold rectangular. simpl. apply Forall_forall.
    intros row' (row & -> & Hrow)%elem_of_map.
    apply length_select_positions.
    rewrite length_to_keep_mask. symmetry.
    apply (proj1 (Forall_forall _ _) Hrect row Hrow).
  - intros j Hj. by apply lookup_to_keep_mask.
Qed.

End LowVariance.



Section LowVarianceReals.
Context {T L FS : Type}.
Implicit Types s : session R T L FS.
Local Open Scope R_scope.








End LowVarianceReals.

(** ** PCA and saving *)

(** The number of components [whiten] hands to PCA. *)
Definition effective_components (d : nat) (n_components : option Z) : Z :=
  match n_components with
  | Some n => if (Z.of_nat d <? n)%Z then Z.of_nat d else n
  | None => Z.of_nat d
  end.

Section Whiten.
Context {F T L Fig FS : Type}.
Variable lib : more_libraries F Fig FS.
Implicit Types s : session F T L FS.

(** Without a number of components, or with one above [n_dim], [whiten]
    prints its message, whatever [verbose] is, and goes on exactly as if it
    had been called with [n_dim]. *)
Theorem whiten_clamps_components n_components wh transform plot save_path s :
  (forall n, n_components = Some n -> (Z.of_nat (n_dim (self (core s))) < n)%Z) ->
  whiten lib n_components wh transform plot save_path s =
  whiten lib (Some (Z.of_nat (n_dim (self (core s))))) wh transform plot save_path
    (mkSession (core s)
               (console s ++ [PrintSettingComponents (n_dim (self (core s)))])
               (disk s)).
Proof.
  intros Hn.
  assert (whiten lib n_components wh transform plot save_path s =
          whiten lib None wh transform plot save_path s) as ->.
  { destruct n_components as [n|]; [|done].
    unfold whiten, and_then, on_core. simpl.
    by rewrite (proj2 (Z.ltb_lt _ _) (Hn n eq_refl)). }
  unfold whiten, and_then, on_core. simpl. by rewrite Z.ltb_irrefl.
Qed.

Lemma whiten_without_transform_core n_components wh plot save_path s :
  core (final (whiten lib n_components wh false plot save_path s)) = core s.
Proof.
  unfold whiten, and_then, on_core, calling, on_disk. simpl.
  destruct n_components as [n|]; simpl;
    [destruct (Z.of_nat (n_dim (self (core s))) <? n)%Z; simpl|];
    destruct (PCA_fit lib _ wh _) as [e|ratios]; simpl; try (by destruct (core s));
    destruct plot; simpl; try (by destruct (core s));
    destruct save_path as [path|]; simpl; try (by destruct (core s));
    destruct (String.eqb path ""); simpl; try (by destruct (core s));
    destruct (savefig lib path _ _); simpl; by destruct (core s).
Qed.

(** With [transform=False], [whiten] changes nothing in the object, and
    neither does [variance_plot], which also leaves the file system alone;
    [save_embeddings] changes nothing in the object either, and with a
    format other than "npy" and "csv" it raises [ValueError] before it
    writes or prints anything. *)
Theorem plotting_and_saving_leave_the_object `{Scalar F}
    n_components wh plot save_path path format s :
  core (final (whiten lib n_components wh false plot save_path s)) = core s /\
  core (final (variance_plot lib n_components s)) = core s /\
  disk (final (variance_plot lib n_components s)) = disk s /\
  core (final (save_embeddings lib path format s)) = core s /\
  (format <> "npy" -> format <> "csv" ->
   save_embeddings lib path format s =
   Raise (ValueError ("Cannot save to unknown format: " +:+ format)) s).
Proof.
  split; [apply whiten_without_transform_core|].
  split; [apply whiten_without_transform_core|].
  split_and!.
  - unfold variance_plot, whiten, and_then, on_core, calling. simpl.
    destruct n_components as [n|]; simpl;
      [destruct (Z.of_nat (n_dim (self (core s))) <? n)%Z; simpl|];
      by destruct (PCA_fit lib _ false _).
  - unfold save_embeddings, and_then, on_core, on_disk, if_verbose_say, and_then,
      on_core. simpl.
    destruct (String.eqb format "npy"); simpl;
      [|destruct (String.eqb format "csv"); simpl];
      try destruct (np_save lib path _ _); try destruct (np_savetxt lib path _ _); simpl;
      try (by destruct (core s)); destruct (verbose (self (core s))); simpl;
      by destruct (core s).
  - intros Hnpy Hcsv. apply String.eqb_neq in Hnpy, Hcsv.
    unfold save_embeddings, and_then. by rewrite Hnpy, Hcsv.
Qed.

(** With [transform=True] and a PCA that succeeds, the matrix is replaced
    by the projection in a new array, [n_dim] is taken from it and the
    dimension is printed whatever [verbose] is; [n_samples], the timestamps
    and the labels stay, as does the array the object referred to. *)
Theorem whiten_replaces_the_matrix n_components wh plot save_path s projection ratios :
  embeddings (self (core s)) < length (heap (core s)) ->
  PCA_fit_transform lib (effective_components (n_dim (self (core s))) n_components) wh
                    (matrix (core s)) = inr (projection, ratios) ->
  let s' := final (whiten lib n_components wh true plot save_path s) in
  matrix (core s') = projection /\
  n_dim (self (core s')) = ncols projection /\
  n_samples (self (core s')) = n_samples (self (core s)) /\
  timestamps (self (core s')) = timestamps (self (core s)) /\
  labels (self (core s')) = labels (self (core s)) /\
  heap (core s') !! embeddings (self (core s)) =
    heap (core s) !! embeddings (self (core s)) /\
  PrintPostPCADim (ncols projection) ∈ console s'.
Proof.
  intros Href Hpca. unfold matrix in Hpca. unfold effective_components in Hpca.
  assert (forall h (a : ndarray F) out ns nd v (ts : option (list T)) (lb : option (list L)),
            matrix (mkWorld (mkEmbedx (length h) ns nd v ts lb) (h ++ [a]) out) = a) as Hm.
  { intros. unfold matrix. simpl. by apply list_lookup_total_middle. }
  assert (forall (l : line) (ls : list line), l ∈ (ls ++ [l])%list) as Hlast.
  { intros l ls. apply elem_of_app. right. by apply list_elem_of_singleton. }
  assert (forall (l l' : line) (ls : list line), l ∈ ((ls ++ [l']) ++ [l])%list) as Hlast2.
  { intros l l' ls. apply Hlast. }
  cbv zeta. unfold whiten, and_then, on_core, calling, on_disk. simpl.
  destruct n_components as [n|]; simpl in *;
    [destruct (Z.of_nat (n_dim (self (core s))) <? n)%Z; simpl in *|];
    rewrite Hpca; simpl; rewrite !list_lookup_total_middle by done;
    destruct plot; simpl; try destruct save_path as [path|]; simpl;
    try destruct (String.eqb path ""); simpl;
    try destruct (savefig lib path _ _); simpl;
    rewrite ?Hm; (split_and!; try done; by rewrite lookup_app_l).
Qed.

End Whiten.

(** ** The further properties on concrete embedding sets *)

Module Demo2.
Import Demo.

(** Three rows with two labels only. *)
Definition misaligned_world : world float nat string :=
  mkWorld (mkEmbedx 0 3 2 false (Some [10; 20; 30]) (Some ["a"; "b"]))
          [example_matrix] [].

(** A neighbour search that answers the example with the identical rows 0
    and 1 in the other order: for row 0 it ranks row 1 first. *)
Definition later_row_first : sklearn_api float := {|
  kneighbors _ _ _ :=
    inr ([[0; 0]; [0; 0]; [0; 1]]%float, [[1; 0]; [0; 1]; [2; 0]]%Z)
|}.

Definition with_later_row_first : libraries float :=
  example_libraries (Sklearn later_row_first).

(** A stand-in for PCA that projects on the first coordinates, figures
    that are the list of ratios, and a file system that records the names
    of the files written. *)
Definition example_more : more_libraries float (list float) (list string) := {|
  PCA_fit n _ _ := inr (replicate (Z.to_nat n) 1%float);
  PCA_fit_transform n _ a :=
    inr (NdArray (map (take (Z.to_nat n)) (rows a)) (Z.to_nat n),
         replicate (Z.to_nat n) 1%float);
  variance_figure ratios := ratios;
  savefig path _ fs := inr (path :: fs);
  np_save path _ fs := inr (path :: fs);
  np_savetxt path _ fs := inr (path :: fs)
|}.

Definition example_session (v : bool) : session float nat string (list string) :=
  mkSession (example_world v) [] [].


Definition centre_session_f64 : session float nat string (list string) :=
  mkSession (mkWorld (mkEmbedx 0 2 2 true None None) [NdArray [[1; 1]; [3; 3]]%float 2] [])
            [] [].


End Demo2.

Section MoreExamples.
Import Demo Demo2.

Ltac in_list Hi :=
  repeat (apply elem_of_cons in Hi as [->|Hi]); simpl; try lia; try done;
  by apply elem_of_nil in Hi.

Lemma remove_indices_removes_designated_rows_witness :
  exists s w',
    _remove_indices [(-1)%Z; 0%Z] (example_world false) = Ok (Some s) w' /\
    rows (matrix w') = [[1; 0]]%float /\
    stats_shape s = (1, 2).
Proof.
  destruct (remove_indices_removes_designated_rows (example_world false) [(-1)%Z; 0%Z])
    as (s & w' & Hrun & _ & _ & Hrows & _ & _ & Hshape & _).
  - apply example_world_well_formed.
  - discriminate.
  - intros i Hi. in_list Hi.
  - exists s, w'. split; [exact Hrun|]. split; [exact Hrows|].
    rewrite Hshape, Hrows. reflexivity.
Defined.

Lemma remove_indices_order_irrelevant_witness :
  _remove_indices [0%Z; 2%Z] (example_world true) =
  _remove_indices [2%Z; 0%Z] (example_world true).
Proof.
  apply (remove_indices_order_irrelevant (example_world true) [0%Z; 2%Z] [2%Z; 0%Z]).
  - apply example_world_well_formed.
  - apply perm_swap.
  - intros i Hi. in_list Hi.
Defined.

Lemma remove_indices_partial_on_misaligned_labels_witness :
  exists w',
    _remove_indices [0%Z] misaligned_world = Raise (mask_mismatch 2 3) w' /\
    rows (matrix w') = [[1; 0]; [0; 1]]%float /\
    timestamps (self w') = Some [20; 30] /\
    labels (self w') = Some ["a"; "b"] /\
    n_samples (self w') = 3.
Proof.
  destruct (remove_indices_partial_on_misaligned_labels misaligned_world [0%Z] ["a"; "b"])
    as (w' & Hrun & Hrows & Hts & Hlb & Hn & _).
  - discriminate.
  - intros i Hi. in_list Hi.
  - reflexivity.
  - intros ts [= <-]. reflexivity.
  - reflexivity.
  - simpl. lia.
  - exists w'. split; [exact Hrun|]. split; [exact Hrows|]. split; [exact Hts|].
    split; [exact Hlb|exact Hn].
Defined.

Lemma find_outliers_lists_flagged_rows_witness :
  exists preds,
    IsolationForest_fit_predict with_sklearn default_threshold
      (matrix (example_world false)) = inr preds /\
    (forall i, i ∈ [2%Z] <-> exists r, i = Z.of_nat r /\ preds !! r = Some (-1)%Z) /\
    StronglySorted Z.lt [2%Z].
Proof.
  apply (find_outliers_lists_flagged_rows with_sklearn (example_world false)
           default_threshold [2%Z] (example_world false)).
  vm_compute. reflexivity.
Defined.

Lemma remove_outliers_removes_flagged_rows_witness :
  exists w',
    remove_outliers with_sklearn default_threshold (example_world false) = Ok tt w' /\
    well_formed w' /\
    filtered_by [true; true; false] (example_world false) w' /\
    length (rows (matrix w')) + 1 = 3.
Proof.
  apply (remove_outliers_removes_flagged_rows with_sklearn (example_world false)
           default_threshold [1%Z; 1%Z; (-1)%Z]).
  - apply example_world_well_formed.
  - reflexivity.
  - reflexivity.
Defined.


(** With the identical rows 0 and 1 ranked the other way, the pair (0, 1)
    sits at the first position of row 0 and is not reported. *)
Lemma find_duplicates_skips_first_neighbour_witness :
  exists duplicates,
    find_duplicates with_later_row_first default_threshold 2 (example_world false) =
      Ok duplicates (example_world false) /\
    (0%Z, 1%Z, 1%float) ∉ duplicates.
Proof.
  exists []. split; [vm_compute; reflexivity|].
  apply (find_duplicates_skips_first_neighbour with_later_row_first (example_world false)
           default_threshold 2 [] (example_world false)
           [[1; 1]; [1; 1]; [1; 0]]%float [[1; 0]; [0; 1]; [2; 0]]%Z 0 [1; 0]%Z).
  - vm_compute. reflexivity.
  - vm_compute. reflexivity.
  - reflexivity.
  - intros [|[|p]]; simpl; discriminate.
Defined.

Lemma methods_leave_existing_arrays_alone_witness :
  heap (final (_remove_indices [1%Z] (example_world true))) !! 0 = Some example_matrix /\
  heap (final (remove_duplicates with_faiss default_threshold 2 (example_world true))) !! 0
    = Some example_matrix /\
  heap (final (normalize "l2" (example_world true))) !! 0 = Some example_matrix.
Proof.
  destruct (methods_leave_existing_arrays_alone with_faiss (example_world true) 0
              example_matrix default_threshold 2 default_threshold [1%Z] "l2" "x.npy")
    as (_ & _ & _ & _ & Hremove & Hdup & _ & Hnorm & _).
  - reflexivity.
  - split; [exact Hremove|]. split; [exact Hdup|exact Hnorm].
Defined.

Lemma normalize_keeps_shape_witness :
  exists w',
    normalize "l2" (example_world true) = Ok tt w' /\
    well_formed w' /\
    shape (matrix w') = (3, 2).
Proof.
  destruct (normalize_keeps_shape (example_world true) "l2")
    as (w' & Hrun & Hw & Hshape & _).
  - apply example_world_well_formed.
  - left. reflexivity.
  - exists w'. split; [exact Hrun|]. split; [exact Hw|exact Hshape].
Defined.


(** The example of the specification in binary64: centring [[1,1],[3,3]]
    gives [[-1,-1],[1,1]], in the array the object already had. *)
Example center_binary64 :
  exists s',
    center centre_session_f64 = Ok tt s' /\
    heap (core s') = [NdArray [[-1; -1]; [1; 1]]%float 2] /\
    embeddings (self (core s')) = 0 /\
    console s' = [PrintCentered].
Proof. eexists. split; [vm_compute; reflexivity|]. by vm_compute. Qed.

Lemma center_overwrites_the_array_witness :
  exists s',
    center (example_session true) = Ok tt s' /\
    self (core s') = self (core (example_session true)) /\
    heap (core s') !! 0 = Some (centered example_matrix).
Proof.
  destruct (center_overwrites_the_array (example_session true))
    as (s' & Hrun & Hself & Hcell & _).
  - simpl. lia.
  - exists s'. split; [exact Hrun|]. split; [exact Hself|exact Hcell].
Defined.



Lemma example_session_rectangular v : rectangular (matrix (core (example_session v))).
Proof. repeat constructor. Qed.

Lemma remove_low_variance_keeps_columns_witness :
  exists s',
    remove_low_variance 0.125%float (example_session true) = Ok tt s' /\
    well_formed (core s') /\
    rectangular (matrix (core s')) /\
    n_samples (self (core s')) = 3.
Proof.
  destruct (remove_low_variance_keeps_columns 0.125%float (example_session true))
    as (s' & Hrun & Hw & Hrect & _ & _ & _ & _ & Hn & _).
  - apply example_world_well_formed.
  - apply example_session_rectangular.
  - exists s'. split; [exact Hrun|]. split; [exact Hw|]. split; [exact Hrect|exact Hn].
Defined.

(** In binary64, on the example: both columns have variance 2/9 and are
    kept with the threshold 1/8, and removed with the threshold 1/4. *)
Example remove_low_variance_binary64 :
  exists s1 s2,
    remove_low_variance 0.125%float (example_session true) = Ok tt s1 /\
    shape (matrix (core s1)) = (3, 2) /\
    remove_low_variance 0.25%float (example_session true) = Ok tt s2 /\
    shape (matrix (core s2)) = (3, 0) /\
    console s2 = [PrintRemovedLowVariance 2 0].
Proof.
  do 2 eexists. split; [vm_compute; reflexivity|]. split; [by vm_compute|].
  split; [vm_compute; reflexivity|]. by vm_compute.
Qed.



Lemma whiten_clamps_components_witness :
  whiten example_more (Some 7%Z) true false true None (example_session false) =
  whiten example_more (Some 2%Z) true false true None
    (mkSession (example_world false) [PrintSettingComponents 2] []).
Proof.
  apply (whiten_clamps_components example_more (Some 7%Z) true false true None
           (example_session false)).
  intros n [= <-]. simpl. lia.
Defined.

Lemma plotting_and_saving_leave_the_object_witness :
  core (final (variance_plot example_more None (example_session true))) =
    example_world true /\
  save_embeddings example_more "embeddings" "txt" (example_session true) =
    Raise (ValueError "Cannot save to unknown format: txt") (example_session true).
Proof.
  destruct (plotting_and_saving_leave_the_object example_more None false true None
              "embeddings" "txt" (example_session true))
    as (_ & Hplot & _ & _ & Hsave).
  split; [exact Hplot|]. apply Hsave; discriminate.
Defined.

Lemma whiten_replaces_the_matrix_witness :
  matrix (core (final (whiten example_more (Some 1%Z) true true true (Some "pca.png")
                              (example_session false)))) =
    NdArray [[1]; [1]; [0]]%float 1 /\
  n_dim (self (core (final (whiten example_more (Some 1%Z) true true true (Some "pca.png")
                                   (example_session false))))) = 1.
Proof.
  destruct (whiten_replaces_the_matrix example_more (Some 1%Z) true true (Some "pca.png")
              (example_session false) (NdArray [[1]; [1]; [0]]%float 1) [1%float])
    as (Hm & Hd & _).
  - simpl. lia.
  - reflexivity.
  - split; [exact Hm|exact Hd].
Defined.

End MoreExamples.

(** ** The flag [verbose] and the other methods *)

Ltac oblivious_method :=
  repeat first
    [ apply oblivious_if_verbose
    | apply silent_print
    | apply silent_bind
    | apply oblivious_find_duplicates
    | apply oblivious_find_outliers
    | apply oblivious_remove_indices
    | apply oblivious_ret
    | apply oblivious_raise
    | apply oblivious_call
    | apply oblivious_new_array
    | apply oblivious_read_array
    | apply oblivious_attr; intros [] ?; reflexivity
    | apply oblivious_update_self;
      intros [] [] ? ? ? ? ?; simpl in *; subst; repeat split
    | apply oblivious_bind; [|intros ?]
    | match goal with
      | |- oblivious (match ?x with _ => _ end) => destruct x
      end ].

Section VerboseElsewhere.
Context {F T L Fig FS : Type} `{Scalar F} `{ColumnStats F}.
Variable env : libraries F.
Variable lib : more_libraries F Fig FS.

(** The same session with the flag [verbose] set to [v]. *)
Definition session_with_verbose (v : bool) (s : session F T L FS) : session F T L FS :=
  mkSession (with_verbose v (core s)) (console s) (disk s).

(** With [verbose] set and with it unset, on otherwise identical state,
    [remove_duplicates], [remove_outliers], [normalize] and
    [load_embeddings] return or raise the same and leave the same data.
    [whiten] does not look at the flag at all: its result, the lines it
    prints and what it writes are the same either way. *)
Theorem verbose_and_the_other_methods
    (s : session F T L FS)
    threshold neighbors contamination method path n_components wh transform plot save_path :
  let loud := whiten lib n_components wh transform plot save_path
                     (session_with_verbose true s) in
  let quiet := whiten lib n_components wh transform plot save_path
                      (session_with_verbose false s) in
  oblivious (T:=T) (L:=L) (remove_duplicates env threshold neighbors) /\
  oblivious (T:=T) (L:=L) (remove_outliers env contamination) /\
  oblivious (T:=T) (L:=L) (normalize method) /\
  oblivious (T:=T) (L:=L) (load_embeddings env path) /\
  result loud = result quiet /\
  console (final loud) = console (final quiet) /\
  disk (final loud) = disk (final quiet) /\
  same_but_verbose (core (final loud)) (core (final quiet)).
Proof.
  cbv zeta. split; [|split; [|split; [|split]]].
  - unfold remove_duplicates. oblivious_method.
  - unfold remove_outliers. oblivious_method.
  - unfold normalize. oblivious_method.
  - unfold load_embeddings. oblivious_method.
  - unfold whiten, and_then, on_core, calling, on_disk, session_with_verbose. simpl.
    destruct n_components as [n|]; simpl;
      [destruct (Z.of_nat (n_dim (self (core s))) <? n)%Z; simpl|];
      destruct transform; simpl;
      try destruct (PCA_fit_transform lib _ wh _) as [e|r]; simpl;
      try destruct (PCA_fit lib _ wh _) as [e|r]; simpl;
      try (by unfold same_but_verbose);
      destruct plot; simpl; try (by unfold same_but_verbose);
      destruct save_path as [sp|]; simpl; try (by unfold same_but_verbose);
      destruct (String.eqb sp ""); simpl; try (by unfold same_but_verbose);
      destruct (savefig lib sp _ _); simpl; by unfold same_but_verbose.
Qed.

End VerboseElsewhere.
